(** * telemetry_email_alerter.py: a shallow embedding of [TelemetryWs]

    The program keeps one long-lived [TelemetryWs] object.  Its methods are
    callbacks of a websocket client: [on_run] issues three requests,
    [on_message] routes every inbound frame by its token, [process_devices]
    merges device batches into the serial-number-to-hostname table and
    [send_email] turns an event into one call of the SMTP session.

    Values read from the wire are the values [json.loads] builds: they are
    modelled by [json], Python dictionaries by [gmap string _].  Methods
    mutate [self] and may raise; they are functions in a state-and-exception
    monad [M] in which the state survives an exception, as the mutations
    of a Python object do.  Library calls that can raise ([json.loads], the
    rendering and sending of a mail) are parameters of the methods. *)

From stdpp Require Import gmap strings list fin_maps.
From Stdlib Require Import ZArith Floats Ascii.

Set Warnings "-register-all".
Set Default Proof Using "Type".

Local Open Scope string_scope.
Local Open Scope list_scope.
Local Open Scope Z_scope.

(** ** Values built by [json.loads] *)

Inductive json : Type :=
  | JNull
  | JBool (b : bool)
  | JInt (z : Z)
  | JFloat (f : float)
  | JStr (s : string)
  | JArr (l : list json)
  | JObj (m : gmap string json).

(** The exceptions the modelled statements can raise; [LibraryError] stands
    for an exception class a library defines ([SMTPException],
    [HeaderParseError], ...). *)
Inductive exn : Type :=
  | ValueError
  | KeyError
  | TypeError
  | IndexError
  | AttributeError
  | LibraryError (name : string).

Inductive res (A : Type) : Type :=
  | Ok (a : A)
  | Raise (e : exn).
Arguments Ok {A} a.
Arguments Raise {A} e.

#[export] Instance res_ret : MRet res := λ A a, Ok a.
#[export] Instance res_bind : MBind res := λ A B f r,
  match r with
  | Ok a => f a
  | Raise e => Raise e
  end.

Module Py.

(** [v[k]] for a string key [k]: only a dictionary can be subscripted by a
    string. *)
Definition getitem_str (v : json) (k : string) : res json :=
  match v with
  | JObj m => match m !! k with Some x => Ok x | None => Raise KeyError end
  | _ => Raise TypeError
  end.

(** [l[i]] on a sequence of length [n]: a negative index counts from the
    end, anything outside [-n, n) is an [IndexError]. *)
Definition seq_index {A : Type} (l : list A) (i : Z) : res A :=
  let n := Z.of_nat (length l) in
  let j := if i <? 0 then i + n else i in
  if (j <? 0) || (n <=? j) then Raise IndexError
  else match l !! Z.to_nat j with
       | Some x => Ok x
       | None => Raise IndexError
       end.

(** [v[i]] for an integer [i].  The keys of a decoded JSON object are
    strings, so an integer is never one of them. *)
Definition getitem_int (v : json) (i : Z) : res json :=
  match v with
  | JArr l => seq_index l i
  | JStr s =>
      match seq_index (String.list_ascii_of_string s) i with
      | Ok c => Ok (JStr (String c EmptyString))
      | Raise e => Raise e
      end
  | JObj _ => Raise KeyError
  | _ => Raise TypeError
  end.

(** [len(v)]. *)
Definition len (v : json) : res Z :=
  match v with
  | JArr l => Ok (Z.of_nat (length l))
  | JStr s => Ok (Z.of_nat (String.length s))
  | JObj m => Ok (Z.of_nat (size m))
  | _ => Raise TypeError
  end.

Fixpoint str_contains (needle hay : string) : bool :=
  String.prefix needle hay ||
  match hay with
  | EmptyString => false
  | String _ hay' => str_contains needle hay'
  end.

Definition is_str (k : string) (v : json) : bool :=
  match v with
  | JStr s => bool_decide (s = k)
  | _ => false
  end.

(** [k in v] for a string [k]: a key of a dictionary, an element of a
    list, a substring of a string. *)
Definition contains_str (k : string) (v : json) : res bool :=
  match v with
  | JObj m => Ok (bool_decide (is_Some (m !! k)))
  | JArr l => Ok (existsb (is_str k) l)
  | JStr s => Ok (str_contains k s)
  | _ => Raise TypeError
  end.

(** The elements a [for] loop over [v] visits: iterating over a
    dictionary yields its keys, over a string its characters. *)
Definition iter (v : json) : res (list json) :=
  match v with
  | JArr l => Ok l
  | JObj m => Ok ((λ kv, JStr kv.1) <$> map_to_list m)
  | JStr s => Ok ((λ c, JStr (String c EmptyString)) <$> String.list_ascii_of_string s)
  | _ => Raise TypeError
  end.

(** [v.items()]: a method of dictionaries only. *)
Definition items (v : json) : res (list (string * json)) :=
  match v with
  | JObj m => Ok (map_to_list m)
  | _ => Raise AttributeError
  end.

(** [v.get(k)]: the value under [k], [None] when there is none. *)
Definition get (v : json) (k : string) : res json :=
  match v with
  | JObj m => Ok (default JNull (m !! k))
  | _ => Raise AttributeError
  end.

(** [d.get(key, dflt)] on a dictionary [d] whose keys are strings.  A list
    or a dictionary is unhashable; any other non-string key is hashable but
    equal to no string. *)
Definition dict_get (d : gmap string json) (key dflt : json) : res json :=
  match key with
  | JStr s => Ok (default dflt (d !! s))
  | JArr _ | JObj _ => Raise TypeError
  | _ => Ok dflt
  end.

(** [v / 1000] in Python 2: floor division on integers (a boolean is an
    integer), IEEE division on floats. *)
Definition div_1000 (v : json) : res json :=
  match v with
  | JInt z => Ok (JInt (z / 1000))
  | JBool b => Ok (JInt (Z.b2z b / 1000))
  | JFloat f => Ok (JFloat (f / 1000)%float)
  | _ => Raise TypeError
  end.

(** [v == t] where [t] is a token field of the object: [None] or a
    string. *)
Definition eq_token (v : json) (t : option string) : bool :=
  match v, t with
  | JNull, None => true
  | JStr s, Some s' => bool_decide (s = s')
  | _, _ => false
  end.

(** [s.split(sep)] for a one-character separator: the pieces between
    the separators, empty pieces included. *)
Fixpoint split_on (sep : ascii) (s : string) : list string :=
  match s with
  | EmptyString => [EmptyString]
  | String c s' =>
      if bool_decide (c = sep) then EmptyString :: split_on sep s'
      else match split_on sep s' with
           | piece :: rest => String c piece :: rest
           | [] => [String c EmptyString]
           end
  end.

(** [upd[k]['value']]: the [value] entry of the entry under [k]. *)
Definition field_value (upd : json) (k : string) : res json :=
  getitem_str upd k ≫= λ x, getitem_str x "value".

End Py.

(** ** The object and what it talks to *)

(** The command-line values the methods read from [self.config]. *)
Record Config : Type := {
  telemetryUrl : string;
  userName : string;
  sendToAddress : string;
  sendCCAddress : option string;
  subjectPrefix : string;
}.

(** Text rendering ([str.format], [time.strftime], [MIMEText.as_string]) is
    library code: a rendered text is kept as its template and arguments. *)
Inductive pyval : Type :=
  | VJson (v : json)
  | VStr (s : string)
  | VLocalTime (fmt : string) (secs : json).

Record formatted : Type := Format {
  template : string;
  format_args : list pyval;
}.

(** One call of [self.server.sendmail]: the envelope and the [MIMEText]
    message with its headers. *)
Record email : Type := {
  envelope_from : string;
  envelope_to : list string;
  hdr_From : string;
  hdr_To : string;
  hdr_Cc : option string;
  hdr_Subject : formatted;
  body : formatted;
}.

(** The library calls of [send_email] that can raise.  Each field tells, for
    the arguments of one call, whether the call returns normally or which
    exception it raises: [time.strftime(fmt, time.localtime(secs))] (a
    timestamp out of range), [template.format(args)] (an argument that
    cannot be encoded), [message.as_string()] on the finished message (a
    header that cannot be written) and [self.server.sendmail] (a refused
    message).  The text a call returns stays symbolic. *)
Record Library : Type := {
  strftime_localtime : string → json → res unit;
  format : string → list pyval → res unit;
  as_string : email → res unit;
  sendmail : email → res unit;
}.

Inductive level : Type := DEBUG | INFO | ERROR.

(** The arguments of a started [threading.Thread] whose target is
    [send_message]. *)
Record request : Type := {
  req_command : string;
  req_token : string;
  req_args : json;
  req_version : string;
}.

(** The fields of [self], followed by the collaborators the methods act on:
    the frames given to [self.socket.send], the calls of
    [self.server.sendmail], the started threads, the [logging] calls (all
    oldest first) and the future draws of the [random] module. *)
Record TelemetryWs : Type := {
  config : Config;
  devices : gmap string json;
  devices_get_token : option string;
  devices_sub_token : option string;
  events_token : option string;
  socket_sent : list json;
  server_sent : list email;
  threads : list request;
  log : list (level * formatted);
  rng : nat → nat;
}.

Definition set_devices (f : gmap string json → gmap string json) (st : TelemetryWs) : TelemetryWs :=
  {| config := config st; devices := f (devices st);
     devices_get_token := devices_get_token st;
     devices_sub_token := devices_sub_token st;
     events_token := events_token st;
     socket_sent := socket_sent st; server_sent := server_sent st;
     threads := threads st; log := log st; rng := rng st |}.

Definition set_devices_get_token (t : option string) (st : TelemetryWs) : TelemetryWs :=
  {| config := config st; devices := devices st;
     devices_get_token := t;
     devices_sub_token := devices_sub_token st;
     events_token := events_token st;
     socket_sent := socket_sent st; server_sent := server_sent st;
     threads := threads st; log := log st; rng := rng st |}.

Definition set_devices_sub_token (t : option string) (st : TelemetryWs) : TelemetryWs :=
  {| config := config st; devices := devices st;
     devices_get_token := devices_get_token st;
     devices_sub_token := t;
     events_token := events_token st;
     socket_sent := socket_sent st; server_sent := server_sent st;
     threads := threads st; log := log st; rng := rng st |}.

Definition set_events_token (t : option string) (st : TelemetryWs) : TelemetryWs :=
  {| config := config st; devices := devices st;
     devices_get_token := devices_get_token st;
     devices_sub_token := devices_sub_token st;
     events_token := t;
     socket_sent := socket_sent st; server_sent := server_sent st;
     threads := threads st; log := log st; rng := rng st |}.

Definition push_socket (frame : json) (st : TelemetryWs) : TelemetryWs :=
  {| config := config st; devices := devices st;
     devices_get_token := devices_get_token st;
     devices_sub_token := devices_sub_token st;
     events_token := events_token st;
     socket_sent := socket_sent st ++ [frame]; server_sent := server_sent st;
     threads := threads st; log := log st; rng := rng st |}.

Definition push_server (m : email) (st : TelemetryWs) : TelemetryWs :=
  {| config := config st; devices := devices st;
     devices_get_token := devices_get_token st;
     devices_sub_token := devices_sub_token st;
     events_token := events_token st;
     socket_sent := socket_sent st; server_sent := server_sent st ++ [m];
     threads := threads st; log := log st; rng := rng st |}.

Definition push_thread (r : request) (st : TelemetryWs) : TelemetryWs :=
  {| config := config st; devices := devices st;
     devices_get_token := devices_get_token st;
     devices_sub_token := devices_sub_token st;
     events_token := events_token st;
     socket_sent := socket_sent st; server_sent := server_sent st;
     threads := threads st ++ [r]; log := log st; rng := rng st |}.

Definition push_log (l : level) (f : formatted) (st : TelemetryWs) : TelemetryWs :=
  {| config := config st; devices := devices st;
     devices_get_token := devices_get_token st;
     devices_sub_token := devices_sub_token st;
     events_token := events_token st;
     socket_sent := socket_sent st; server_sent := server_sent st;
     threads := threads st; log := log st ++ [(l, f)]; rng := rng st |}.

Definition next_rng (st : TelemetryWs) : TelemetryWs :=
  {| config := config st; devices := devices st;
     devices_get_token := devices_get_token st;
     devices_sub_token := devices_sub_token st;
     events_token := events_token st;
     socket_sent := socket_sent st; server_sent := server_sent st;
     threads := threads st; log := log st; rng := λ n, rng st (S n) |}.

(** ** Methods as state-and-exception computations *)

Definition M (A : Type) : Type := TelemetryWs → res A * TelemetryWs.

#[export] Instance M_ret : MRet M := λ A a st, (Ok a, st).
#[export] Instance M_bind : MBind M := λ A B f c st,
  match c st with
  | (Ok a, st') => f a st'
  | (Raise e, st') => (Raise e, st')
  end.

Definition lift {A : Type} (r : res A) : M A := λ st, (r, st).
Definition self : M TelemetryWs := λ st, (Ok st, st).
Definition update (f : TelemetryWs → TelemetryWs) : M unit := λ st, (Ok tt, f st).

Definition logging (l : level) (f : formatted) : M unit := update (push_log l f).

(** A [for] loop: the body runs on each element in turn and the first
    exception ends the loop. *)
Fixpoint for_each {A : Type} (body : A → M unit) (l : list A) : M unit :=
  match l with
  | [] => mret tt
  | x :: l' => body x ≫= λ _, for_each body l'
  end.

Definition VERSION_09 : string := "0.9.0".
Definition VERSION_1 : string := "1.0.0".
Definition SUBSCRIBE : string := "subscribe".
Definition GET : string := "get".

Definition nl : string := String (ascii_of_nat 10) EmptyString.

(** The body literal of [send_email]; a backslash at the end of a source
    line joins it to the next one. *)
Definition body_template : string :=
  "{} event on {} at {}" +:+ nl +:+
  "         Description: {}" +:+ nl +:+
  "         View Event at {}/telemetry/events" +:+ nl.

(** [send_message]: the request dictionary is handed to [self.socket.send]
    (its [json.dumps] text is kept as the dictionary). *)
Definition send_message (command token : string) (args : json) (version : string) : M unit :=
  let arg_name := if bool_decide (version = "0.9.0") then "args" else "params" in
  let data : gmap string json :=
    <["version" := JStr version]>
      (<[arg_name := args]>
         (<["command" := JStr command]>
            (<["token" := JStr token]> ∅))) in
  update (push_socket (JObj data)).

(** [value['value']['hostname']] for one value of a device batch. *)
Definition hostname_of (value : json) : res json :=
  Py.getitem_str value "value" ≫= λ v, Py.getitem_str v "hostname".

(** The body of the loop of [process_devices]:
    [self.devices[key] = value['value']['hostname']]. *)
Definition store_hostname (kv : string * json) : M unit :=
  hostname ← lift (hostname_of kv.2);
  update (set_devices <[kv.1 := hostname]>).

(** [process_devices]: every item of [devices['updates']] overwrites one
    entry of [self.devices]. *)
Definition process_devices (batch : json) : M unit :=
  updates ← lift (Py.getitem_str batch "updates");
  items ← lift (Py.items updates);
  for_each store_hostname items;;
  st ← self;
  logging INFO (Format "Received devices. Total device count is {}."
                       [VJson (JInt (Z.of_nat (size (devices st))))]).

(** [send_email]: nothing happens without a [data] entry; otherwise one
    message is built and given to [self.server.sendmail].  The library
    calls of lines 245 to 261 raise when [lib] says so, in the order of
    the source; a refused [sendmail] records no message.  The arguments of
    the last [format] (line 262) were already formatted for the subject. *)
Definition send_email (lib : Library) (event : json) : M unit :=
  updates ← lift (Py.getitem_str event "updates");
  has_data ← lift (Py.contains_str "data" updates);
  if negb has_data then mret tt else
  logging DEBUG (Format "Preparing email notification." []);;
  upd ← lift (Py.getitem_str event "updates");
  data ← lift (Py.field_value upd "data");
  st ← self;
  key ← lift (Py.get data "deviceId");
  dflt ← lift (Py.get data "deviceId");
  host ← lift (Py.dict_get (devices st) key dflt);
  severity ← lift (Py.field_value upd "severity");
  title ← lift (Py.field_value upd "title");
  desc ← lift (Py.field_value upd "description");
  timestamp ← lift (Py.field_value upd "timestamp" ≫= Py.div_1000);
  lift (strftime_localtime lib "%Y-%m-%d %H:%M:%S" timestamp);;
  let datetime := VLocalTime "%Y-%m-%d %H:%M:%S" timestamp in
  let cfg := config st in
  let body_args :=
    [VJson severity; VJson host; datetime; VJson desc; VStr (telemetryUrl cfg)] in
  lift (format lib body_template body_args);;
  let subject_args := [VStr (subjectPrefix cfg); VJson severity; VJson title] in
  lift (format lib "{} {} {}" subject_args);;
  let message := {|
    envelope_from := userName cfg;
    envelope_to := Py.split_on "," (sendToAddress cfg);
    hdr_From := userName cfg;
    hdr_To := sendToAddress cfg;
    hdr_Cc := match sendCCAddress cfg with
              | Some cc => if bool_decide (cc = "") then None else Some cc
              | None => None
              end;
    hdr_Subject := Format "{} {} {}" subject_args;
    body := Format body_template body_args;
  |} in
  lift (as_string lib message);;
  lift (sendmail lib message);;
  update (push_server message);;
  logging INFO (Format "Email sent for event: {} {}" [VJson severity; VJson title]).

Definition ascii_uppercase : string := "ABCDEFGHIJKLMNOPQRSTUVWXYZ".
Definition digits : string := "0123456789".
Definition alphabet : string := ascii_uppercase +:+ digits.
Definition seed_length : nat := 20.

(** [random.choice(seq)]: the next draw of the generator picks a position
    of [seq]. *)
Definition random_choice (seq : string) : M ascii := λ st,
  match String.list_ascii_of_string seq !! (rng st 0%nat mod String.length seq)%nat with
  | Some c => (Ok c, next_rng st)
  | None => (Raise IndexError, next_rng st)
  end.

(** [random.choice(seq) for _ in range(n)]. *)
Fixpoint choices (n : nat) (seq : string) : M (list ascii) :=
  match n with
  | O => mret []
  | S n' => c ← random_choice seq; cs ← choices n' seq; mret (c :: cs)
  end.

(** The seed of [make_token]: twenty characters joined into one string. *)
Definition make_seed : M string :=
  cs ← choices seed_length alphabet;
  mret (String.string_of_list_ascii cs).

(** [data['result'][0]['Notifications']]. *)
Definition notifications_of (data : json) : res json :=
  Py.getitem_str data "result" ≫= λ r,
  Py.getitem_int r 0 ≫= λ r0,
  Py.getitem_str r0 "Notifications".

Section Callbacks.

(** The library functions the methods call: [json.loads], [None] standing
    for the [ValueError] it raises on text that is not JSON,
    [SHA256.new(_).hexdigest()], and the calls of [send_email]. *)
Variable json_loads : string → option json.
Variable SHA256_hexdigest : string → string.
Variable lib : Library.

Definition make_token : M string :=
  seed ← make_seed;
  mret (String.substring 0 38 (SHA256_hexdigest seed)).

(** [on_message]: [data['token']] is looked up again in each comparison
    of the source, every time with the same outcome. *)
Definition on_message (message : string) : M unit :=
  data ← lift (match json_loads message with
               | Some v => Ok v
               | None => Raise ValueError
               end);
  st ← self;
  tok ← lift (Py.getitem_str data "token");
  if Py.eq_token tok (events_token st) then
    has_result ← lift (Py.contains_str "result" data);
    if (has_result : bool) then
      notifications ← lift (notifications_of data);
      events ← lift (Py.iter notifications);
      for_each (send_email lib) events
    else (mret tt : M unit)
  else if Py.eq_token tok (devices_get_token st)
          || Py.eq_token tok (devices_sub_token st) then
    has_result ← lift (Py.contains_str "result" data);
    if (has_result : bool) then
      switch_updates ← lift (notifications_of data);
      n ← lift (Py.len switch_updates);
      last_batch ← lift (Py.getitem_int switch_updates (n - 1));
      process_devices last_batch
    else (mret tt : M unit)
  else (mret tt : M unit).

(** A started thread is recorded with the arguments its [send_message]
    will be called with. *)
Definition thread_start (r : request) : M unit := update (push_thread r).

Definition analytics_query (path : string) : json :=
  JObj {[ "analytics" := JObj {[ path := JBool true ]} ]}.

Definition get_events : M unit :=
  logging INFO (Format "Subscribing to Telemetry events" []);;
  tok ← make_token;
  update (set_events_token (Some tok));;
  let args := JObj {[ "query" := analytics_query "/events/v1/allEvents" ]} in
  thread_start {| req_command := SUBSCRIBE; req_token := tok;
                  req_args := args; req_version := VERSION_1 |}.

Definition get_and_subscribe_devices : M unit :=
  logging INFO (Format "Subscribing to Telemetry devices." []);;
  get_tok ← make_token;
  update (set_devices_get_token (Some get_tok));;
  sub_tok ← make_token;
  update (set_devices_sub_token (Some sub_tok));;
  let get_args := JObj {[ "query" := analytics_query "/DatasetInfo/EosSwitches";
                          "count" := JBool false ]} in
  thread_start {| req_command := GET; req_token := get_tok;
                  req_args := get_args; req_version := VERSION_1 |};;
  let args := JObj {[ "query" := analytics_query "/DatasetInfo/EosSwitches" ]} in
  thread_start {| req_command := SUBSCRIBE; req_token := sub_tok;
                  req_args := args; req_version := VERSION_1 |}.

Definition on_run : M unit :=
  logging INFO (Format "Websocket connected." []);;
  get_and_subscribe_devices;;
  get_events.

End Callbacks.


(** ** Vocabulary of the statements *)

(** The lookup of line 240, [self.devices.get(id, id)], with the device
    identifier passed as key and as default. *)
Definition resolve (d : gmap string json) (deviceId : json) : res json :=
  Py.dict_get d deviceId deviceId.

(** The device batches of a frame applied one after the other, in arrival
    order. *)
Definition apply_batches (batches : list json) : M unit :=
  for_each process_devices batches.

(** Batch [b] carries hostname [h] for identifier [k]. *)
Definition mentions (b : json) (k : string) (h : json) : Prop :=
  ∃ (u : gmap string json) (v : json),
    Py.getitem_str b "updates" = Ok (JObj u) ∧ u !! k = Some v ∧ hostname_of v = Ok h.

(** Batch [b] has an entry for identifier [k]. *)
Definition has_key (b : json) (k : string) : Prop :=
  ∃ u : gmap string json,
    Py.getitem_str b "updates" = Ok (JObj u) ∧ is_Some (u !! k).

(** A batch of the shape the feed sends: [updates] is a dictionary and each
    of its values has a [value.hostname]. *)
Definition well_formed_batch (b : json) : Prop :=
  ∃ u : gmap string json,
    Py.getitem_str b "updates" = Ok (JObj u)
    ∧ ∀ k v, u !! k = Some v → ∃ h, hostname_of v = Ok h.

(** The comparisons of [on_message] on a token: the events branch is
    tried first, the devices branch only when it fails. *)
Definition routes_to_events (st : TelemetryWs) (tok : json) : bool :=
  Py.eq_token tok (events_token st).

Definition routes_to_devices (st : TelemetryWs) (tok : json) : bool :=
  negb (Py.eq_token tok (events_token st))
  && (Py.eq_token tok (devices_get_token st) || Py.eq_token tok (devices_sub_token st)).

(** What [json.loads] returns on the messages of an example: the listed
    values, and a [ValueError] on any other text. *)
Fixpoint loads_of (table : list (string * json)) (message : string) : option json :=
  match table with
  | [] => None
  | (text, v) :: rest =>
      if bool_decide (text = message) then Some v else loads_of rest message
  end.

(** A frame is handled without trace when the call returns normally and
    leaves every field and collaborator as it was. *)
Definition silently_ignored (r : res unit * TelemetryWs) (st : TelemetryWs) : Prop :=
  r = (Ok tt, st).


(** The characters [random.choice] can return from the seed alphabet. *)
Definition alphabet_chars : list ascii := String.list_ascii_of_string alphabet.

(** All character sequences of length [n] over the seed alphabet. *)
Fixpoint words (n : nat) : list (list ascii) :=
  match n with
  | O => [[]]
  | S n' => c ← alphabet_chars; (cons c) <$> words n'
  end.

(** The seeds [make_token] hashes: every string of [seed_length] alphabet
    characters. *)
Definition seed_space : list string :=
  String.string_of_list_ascii <$> words seed_length.

(** [s] is a seed some run of [make_seed] produces. *)
Definition possible_seed (s : string) : Prop :=
  ∃ st : TelemetryWs, (make_seed st).1 = Ok s.

Definition set_rng (g : nat → nat) (st : TelemetryWs) : TelemetryWs :=
  {| config := config st; devices := devices st;
     devices_get_token := devices_get_token st;
     devices_sub_token := devices_sub_token st;
     events_token := events_token st;
     socket_sent := socket_sent st; server_sent := server_sent st;
     threads := threads st; log := log st; rng := g |}.

(** ** Sample values *)

Definition sample_config : Config :=
  {| telemetryUrl := "cvp.example"; userName := "bob@acme.com";
     sendToAddress := "a@x,b@y"; sendCCAddress := None;
     subjectPrefix := "[CloudVision Telemetry]" |}.

(** A library whose calls all return normally. *)
Definition sample_library : Library :=
  {| strftime_localtime := λ _ _, Ok tt; format := λ _ _, Ok tt;
     as_string := λ _, Ok tt; sendmail := λ _, Ok tt |}.


(** The object after [on_run]: an empty device table and three tokens. *)
Definition sample_ws : TelemetryWs :=
  {| config := sample_config; devices := ∅;
     devices_get_token := Some "get-token";
     devices_sub_token := Some "sub-token";
     events_token := Some "events-token";
     socket_sent := []; server_sent := []; threads := []; log := [];
     rng := λ n, n |}.

Definition device_value (hostname : string) : json :=
  JObj {[ "value" := JObj {[ "hostname" := JStr hostname ]} ]}.

Definition device_batch (u : gmap string json) : json :=
  JObj {[ "updates" := JObj u ]}.

(** The entries of a response frame and of an acknowledgement frame. *)
Definition result_fields (token : string) (notifications : list json) : gmap string json :=
  {[ "token" := JStr token;
     "result" := JArr [JObj {[ "Notifications" := JArr notifications ]}] ]}.

Definition ack_fields (token : string) : gmap string json :=
  {[ "token" := JStr token ]}.

(** The entries of a response frame whose token is any JSON value. *)
Definition result_fields_of (token : json) (notifications : list json) : gmap string json :=
  {[ "token" := token;
     "result" := JArr [JObj {[ "Notifications" := JArr notifications ]}] ]}.

(** The object as the constructor leaves it: no device, no token. *)
Definition fresh_ws : TelemetryWs :=
  {| config := sample_config; devices := ∅;
     devices_get_token := None; devices_sub_token := None; events_token := None;
     socket_sent := []; server_sent := []; threads := []; log := [];
     rng := λ n, n |}.

(** The snapshot and the two update batches of the merge example. *)
Definition sample_batches : list json :=
  [ device_batch {[ "A" := device_value "host1" ]};
    device_batch {[ "B" := device_value "host2" ]};
    device_batch {[ "A" := device_value "host3" ]} ].

Definition valued (v : json) : json := JObj {[ "value" := v ]}.

Definition sample_event_updates : gmap string json :=
  {[ "data" := valued (JObj {[ "deviceId" := JStr "SN1" ]});
     "severity" := valued (JStr "ERROR");
     "title" := valued (JStr "Link down");
     "description" := valued (JStr "Ethernet1 is down");
     "timestamp" := valued (JInt 1700000000000) ]}.

Definition sample_event : json := JObj {[ "updates" := JObj sample_event_updates ]}.

Definition sample_updates_no_data : gmap string json :=
  {[ "severity" := valued (JStr "INFO") ]}.

Definition sample_event_no_data : json :=
  JObj {[ "updates" := JObj sample_updates_no_data ]}.

(** An event whose [data] names no device. *)
Definition sample_event_no_device : json :=
  JObj {[ "updates" := JObj (<[ "data" := valued (JObj ∅) ]> sample_event_updates) ]}.



(** A device response with two batches: [{A: host1}], then [{B: host2}]. *)
Definition two_batch_fields : gmap string json :=
  result_fields "sub-token"
    [device_batch {[ "A" := device_value "host1" ]};
     device_batch {[ "B" := device_value "host2" ]}].


(** ** The remaining callbacks *)

(** The error object the websocket library passes to [on_error]. *)
Inductive ws_error : Type :=
  | KeyboardInterrupt
  | WsError (description : string).

(** [on_close]: one [INFO] record. *)
Definition on_close : M unit :=
  logging INFO (Format "Websocket connection closed." []).

(** [on_error]: a [KeyboardInterrupt] is passed over in silence, any other
    error is logged. *)
Definition on_error (error : ws_error) : M unit :=
  match error with
  | KeyboardInterrupt => mret tt
  | WsError description =>
      logging ERROR (Format "Websocket connection error: {}" [VStr description])
  end.

(** ** Vocabulary of the further statements *)

(** ['data' in event['updates']], false when the test itself raises. *)
Definition has_data (event : json) : bool :=
  match Py.getitem_str event "updates" ≫= Py.contains_str "data" with
  | Ok b => b
  | Raise _ => false
  end.

(** The hostnames a dictionary of device values carries. *)
Definition hostnames (u : gmap string json) : gmap string json :=
  omap (λ v, match hostname_of v with Ok h => Some h | Raise _ => None end) u.

(** The fields no callback but [on_run] writes: configuration, tokens,
    frames given to the socket, started threads and the generator. *)
Definition same_wiring (st st' : TelemetryWs) : Prop :=
  config st' = config st
  ∧ devices_get_token st' = devices_get_token st
  ∧ devices_sub_token st' = devices_sub_token st
  ∧ events_token st' = events_token st
  ∧ socket_sent st' = socket_sent st
  ∧ threads st' = threads st
  ∧ rng st' = rng st.

(** The log of [st'] is the log of [st] followed by records below the
    [ERROR] level. *)
Definition log_extended (st st' : TelemetryWs) : Prop :=
  ∃ added, log st' = log st ++ added ∧ Forall (λ r, r.1 ≠ ERROR) added.

(** The calls of the mail session of [st'] are those of [st] followed by
    [mails]. *)
Definition mails_added (st st' : TelemetryWs) (mails : list email) : Prop :=
  server_sent st' = server_sent st ++ mails.

(** The [Cc] header [send_email] sets for a configuration. *)
Definition cc_header (cfg : Config) : option string :=
  match sendCCAddress cfg with
  | Some cc => if bool_decide (cc = "") then None else Some cc
  | None => None
  end.

(** The message [send_email] builds from the configuration and the values
    read from an event. *)
Definition alert_for (cfg : Config) (severity host title desc secs : json) : email :=
  {| envelope_from := userName cfg;
     envelope_to := Py.split_on "," (sendToAddress cfg);
     hdr_From := userName cfg;
     hdr_To := sendToAddress cfg;
     hdr_Cc := cc_header cfg;
     hdr_Subject := Format "{} {} {}" [VStr (subjectPrefix cfg); VJson severity; VJson title];
     body := Format body_template
               [VJson severity; VJson host; VLocalTime "%Y-%m-%d %H:%M:%S" secs;
                VJson desc; VStr (telemetryUrl cfg)] |}.

(** The library calls [send_email] makes for these values, in the order of
    the source; the first exception ends them. *)
Definition mail_outcome (lib : Library) (cfg : Config)
    (severity host title desc secs : json) : res unit :=
  strftime_localtime lib "%Y-%m-%d %H:%M:%S" secs ≫= λ _,
  format lib body_template
    [VJson severity; VJson host; VLocalTime "%Y-%m-%d %H:%M:%S" secs;
     VJson desc; VStr (telemetryUrl cfg)] ≫= λ _,
  format lib "{} {} {}" [VStr (subjectPrefix cfg); VJson severity; VJson title] ≫= λ _,
  as_string lib (alert_for cfg severity host title desc secs) ≫= λ _,
  sendmail lib (alert_for cfg severity host title desc secs).

(** All of these library calls return normally. *)
Definition renders (lib : Library) (cfg : Config)
    (severity host title desc secs : json) : Prop :=
  mail_outcome lib cfg severity host title desc secs = Ok tt.

(** The state after [send_email] has mailed [alert]: the [DEBUG] record, the
    call of the mail session and the [INFO] record. *)
Definition after_mail (alert : email) (severity title : json) (st : TelemetryWs) : TelemetryWs :=
  push_log INFO (Format "Email sent for event: {} {}" [VJson severity; VJson title])
    (push_server alert
       (push_log DEBUG (Format "Preparing email notification." []) st)).

(** The three requests [on_run] starts for tokens [g], [s] and [e]. *)
Definition startup_requests (g s e : string) : list request :=
  [ {| req_command := GET; req_token := g;
       req_args := JObj {[ "query" := analytics_query "/DatasetInfo/EosSwitches";
                           "count" := JBool false ]};
       req_version := VERSION_1 |};
    {| req_command := SUBSCRIBE; req_token := s;
       req_args := JObj {[ "query" := analytics_query "/DatasetInfo/EosSwitches" ]};
       req_version := VERSION_1 |};
    {| req_command := SUBSCRIBE; req_token := e;
       req_args := JObj {[ "query" := analytics_query "/events/v1/allEvents" ]};
       req_version := VERSION_1 |} ].

(** Running [send_message] on the arguments of request [r] sends one
    dictionary that holds the arguments under [params], has no [args]
    entry and carries the request's token, command and version. *)
Definition sent_with_params (st : TelemetryWs) (r : request) : Prop :=
  ∃ d : gmap string json,
    send_message (req_command r) (req_token r) (req_args r) (req_version r) st
      = (Ok tt, push_socket (JObj d) st)
    ∧ d !! "params" = Some (req_args r)
    ∧ d !! "args" = None
    ∧ d !! "token" = Some (JStr (req_token r))
    ∧ d !! "command" = Some (JStr (req_command r))
    ∧ d !! "version" = Some (JStr "1.0.0").

(** A stand-in digest of the right length for the examples: 64
    hexadecimal digits, whatever the seed. *)
Definition sample_digest (seed : string) : string :=
  "0000000000000000000000000000000000000000000000000000000000000000".

(** * Properties *)

Example getitem_int_last : Py.getitem_int (JArr [JInt 1; JInt 2]) 1 = Ok (JInt 2).
Proof. reflexivity. Qed.
Example getitem_int_neg : Py.getitem_int (JArr []) (-1) = Raise IndexError.
Proof. reflexivity. Qed.
Example split_on_ex : Py.split_on "," "a@x,b@y" = ["a@x"; "b@y"].
Proof. reflexivity. Qed.

(** ** Requests: the versioned argument key *)

(** C3. The dictionary [send_message] hands to the socket holds the
    arguments under [args] when the version is "0.9.0" and under [params]
    for any other version, never under both, next to the [token],
    [command] and [version] entries and nothing else; it is the only frame
    the call sends. *)
Theorem send_message_args_key (command token : string) (args : json)
    (version : string) (st : TelemetryWs) :
  ∃ d : gmap string json,
    send_message command token args version st = (Ok tt, push_socket (JObj d) st)
    ∧ socket_sent (push_socket (JObj d) st) = socket_sent st ++ [JObj d]
    ∧ d !! "token" = Some (JStr token)
    ∧ d !! "command" = Some (JStr command)
    ∧ d !! "version" = Some (JStr version)
    ∧ ((version = "0.9.0" ∧ d !! "args" = Some args ∧ d !! "params" = None
        ∧ dom d = {[ "token"; "command"; "version"; "args" ]})
       ∨ (version ≠ "0.9.0" ∧ d !! "params" = Some args ∧ d !! "args" = None
          ∧ dom d = {[ "token"; "command"; "version"; "params" ]})).
Proof.
  unfold send_message.
  case_bool_decide as Hv; eexists; (split; [reflexivity|]);
    (split; [reflexivity|]); (split; [by simplify_map_eq|]);
    (split; [by simplify_map_eq|]); (split; [by simplify_map_eq|]);
    [left|right]; (split; [done|]); (split; [by simplify_map_eq|]);
    (split; [by simplify_map_eq|]);
    rewrite !dom_insert_L, dom_empty_L; set_solver.
Qed.

(** ** Resolving a device identifier *)


(** ** Routing of inbound frames *)

Section Routing.

Variable json_loads : string → option json.
Variable lib : Library.

Lemma on_message_parsed (message : string) (m : gmap string json) (tok : json)
    (st : TelemetryWs) :
  json_loads message = Some (JObj m) →
  m !! "token" = Some tok →
  on_message json_loads lib message st =
    (if Py.eq_token tok (events_token st) then
       if bool_decide (is_Some (m !! "result")) then
         (notifications ← lift (notifications_of (JObj m));
          events ← lift (Py.iter notifications);
          for_each (send_email lib) events) st
       else (Ok tt, st)
     else if Py.eq_token tok (devices_get_token st)
             || Py.eq_token tok (devices_sub_token st) then
       if bool_decide (is_Some (m !! "result")) then
         (switch_updates ← lift (notifications_of (JObj m));
          n ← lift (Py.len switch_updates);
          last_batch ← lift (Py.getitem_int switch_updates (n - 1));
          process_devices last_batch) st
       else (Ok tt, st)
     else (Ok tt, st)).
Proof.
  intros Hload Htok. unfold on_message.
  unfold mbind at 1, M_bind at 1, lift at 1. rewrite Hload.
  unfold mbind at 1, M_bind at 1, self at 1.
  unfold mbind at 1, M_bind at 1, lift at 1. cbn [Py.getitem_str]. rewrite Htok.
  destruct (Py.eq_token tok (events_token st)).
  { unfold mbind at 1, M_bind at 1, lift at 1. cbn [Py.contains_str].
    by destruct (bool_decide (is_Some (m !! "result"))). }
  destruct (Py.eq_token tok (devices_get_token st) || Py.eq_token tok (devices_sub_token st)).
  { unfold mbind at 1, M_bind at 1, lift at 1. cbn [Py.contains_str].
    by destruct (bool_decide (is_Some (m !! "result"))). }
  done.
Qed.

(** C4. A frame that is a dictionary with a [token] is ignored without
    trace when its token equals none of the three token fields, and also
    when it has no [result] key: [on_message] returns normally and the
    device table, the calls of the mail session, the log and every other
    field are what they were. *)
Theorem on_message_ignores (message : string) (m : gmap string json) (tok : json)
    (st : TelemetryWs) :
  json_loads message = Some (JObj m) →
  m !! "token" = Some tok →
  (routes_to_events st tok = false ∧ routes_to_devices st tok = false)
    ∨ m !! "result" = None →
  silently_ignored (on_message json_loads lib message st) st
  ∧ devices (on_message json_loads lib message st).2 = devices st
  ∧ server_sent (on_message json_loads lib message st).2 = server_sent st.
Proof.
  intros Hload Htok Hcase.
  assert (on_message json_loads lib message st = (Ok tt, st)) as ->; [|done].
  rewrite (on_message_parsed _ _ _ _ Hload Htok).
  unfold routes_to_events, routes_to_devices in Hcase.
  destruct Hcase as [[He Hd]|Hres].
  - rewrite He in *. cbn in Hd. by rewrite Hd.
  - rewrite Hres. rewrite bool_decide_eq_false_2 by (by intros [? ?]).
    by repeat case_match.
Qed.

Lemma on_message_devices (message : string) (m : gmap string json) (tok r : json)
    (st : TelemetryWs) :
  json_loads message = Some (JObj m) →
  m !! "token" = Some tok →
  routes_to_devices st tok = true →
  m !! "result" = Some r →
  on_message json_loads lib message st =
    (switch_updates ← lift (notifications_of (JObj m));
     n ← lift (Py.len switch_updates);
     last_batch ← lift (Py.getitem_int switch_updates (n - 1));
     process_devices last_batch) st.
Proof.
  intros Hload Htok Hroute Hres.
  rewrite (on_message_parsed _ _ _ _ Hload Htok).
  unfold routes_to_devices in Hroute.
  apply andb_true_iff in Hroute as [He Hd].
  apply negb_true_iff in He. rewrite He, Hd, Hres.
  by rewrite bool_decide_eq_true_2.
Qed.

Lemma seq_index_last {A : Type} (l : list A) (x : A) :
  Py.seq_index (l ++ [x]) (Z.of_nat (length (l ++ [x])) - 1) = Ok x.
Proof.
  unfold Py.seq_index. rewrite length_app. cbn [length].
  replace (Z.of_nat (length l + 1) - 1) with (Z.of_nat (length l)) by lia.
  destruct (Z.ltb_spec (Z.of_nat (length l)) 0) as [?|_]; [lia|].
  destruct (Z.ltb_spec (Z.of_nat (length l)) 0) as [?|_]; [lia|].
  destruct (Z.leb_spec (Z.of_nat (length l + 1)) (Z.of_nat (length l))) as [?|_]; [lia|].
  cbn [orb]. rewrite Nat2Z.id.
  by rewrite lookup_app_r, Nat.sub_diag by lia.
Qed.

(** C10. On a frame routed to the devices branch whose [result] carries a
    list of batches, an empty list makes [on_message] raise [IndexError]
    and leave the object as it was; hence a normal return is only possible
    when the list is non-empty. *)
Theorem on_message_empty_notifications (message : string) (m : gmap string json)
    (tok r : json) (batches : list json) (st : TelemetryWs) :
  json_loads message = Some (JObj m) →
  m !! "token" = Some tok →
  routes_to_devices st tok = true →
  m !! "result" = Some r →
  notifications_of (JObj m) = Ok (JArr batches) →
  (batches = [] → on_message json_loads lib message st = (Raise IndexError, st))
  ∧ ((on_message json_loads lib message st).1 = Ok tt → batches ≠ []).
Proof.
  intros Hload Htok Hroute Hres Hnot.
  assert (batches = [] → on_message json_loads lib message st = (Raise IndexError, st)) as Hempty.
  { intros ->.
    rewrite (on_message_devices _ _ _ _ _ Hload Htok Hroute Hres).
    unfold mbind at 1, M_bind at 1, lift at 1. by rewrite Hnot. }
  split; [done|]. intros Hok ->. by rewrite Hempty in Hok.
Qed.

End Routing.

(** ** Events *)

(** The run of [send_email] on an event whose fields can be read: the
    library calls decide between one mailed message and an exception
    after the [DEBUG] record. *)
Lemma send_email_run (lib : Library) (event upd data key host : json)
    (severity title desc millis secs : json) (st : TelemetryWs) :
  Py.getitem_str event "updates" = Ok upd →
  Py.contains_str "data" upd = Ok true →
  Py.field_value upd "data" = Ok data →
  Py.get data "deviceId" = Ok key →
  Py.dict_get (devices st) key key = Ok host →
  Py.field_value upd "severity" = Ok severity →
  Py.field_value upd "title" = Ok title →
  Py.field_value upd "description" = Ok desc →
  Py.field_value upd "timestamp" = Ok millis →
  Py.div_1000 millis = Ok secs →
  send_email lib event st =
    match mail_outcome lib (config st) severity host title desc secs with
    | Ok _ => (Ok tt, after_mail (alert_for (config st) severity host title desc secs)
                        severity title st)
    | Raise e => (Raise e, push_log DEBUG (Format "Preparing email notification." []) st)
    end.
Proof.
  intros Hupd Hhas Hdata Hkey Hhost Hsev Htitle Hdesc Hms Hsecs.
  unfold send_email, mail_outcome.
  unfold mbind, M_bind, res_bind, lift, self, logging, update.
  rewrite Hupd, Hhas. cbn [negb]. rewrite Hdata, Hkey. cbn [push_log devices config].
  rewrite Hhost, Hsev, Htitle, Hdesc, Hms, Hsecs.
  destruct (strftime_localtime lib _ secs) as [[]|e]; [|done].
  destruct (format lib body_template _) as [[]|e]; [|done].
  destruct (format lib "{} {} {}" _) as [[]|e]; [|done].
  unfold alert_for, cc_header.
  destruct (as_string lib _) as [[]|e]; [|done].
  by destruct (sendmail lib _) as [[]|e].
Qed.


(** ** The device table *)

Lemma for_each_cons {A : Type} (body : A → M unit) (x : A) (l : list A) (st : TelemetryWs) :
  for_each body (x :: l) st =
    match body x st with
    | (Ok _, st') => for_each body l st'
    | (Raise e, st') => (Raise e, st')
    end.
Proof. reflexivity. Qed.

Lemma for_each_app {A : Type} (body : A → M unit) (l1 l2 : list A) (st st1 : TelemetryWs) :
  for_each body l1 st = (Ok tt, st1) →
  for_each body (l1 ++ l2) st = for_each body l2 st1.
Proof.
  revert st. induction l1 as [|x l1 IH]; intros st Hrun.
  - change (for_each body [] st) with (Ok tt, st) in Hrun. by simplify_eq.
  - cbn [app]. rewrite for_each_cons in *.
    destruct (body x st) as [[[]|e] st']; [by apply IH|discriminate].
Qed.

Lemma store_hostname_devices (kv : string * json) (st : TelemetryWs) :
  (∃ h, hostname_of kv.2 = Ok h
        ∧ store_hostname kv st = (Ok tt, set_devices <[kv.1 := h]> st))
  ∨ (∃ e, hostname_of kv.2 = Raise e ∧ store_hostname kv st = (Raise e, st)).
Proof.
  unfold store_hostname, mbind, M_bind, lift, update.
  destruct (hostname_of kv.2) as [h|e]; [left|right]; eauto.
Qed.

(** The loop never drops an entry and only touches the keys it visits,
    whether or not it ends with an exception. *)
Lemma store_loop_preserves (items : list (string * json)) (st : TelemetryWs) (k : string) :
  (is_Some (devices st !! k) →
     is_Some (devices (for_each store_hostname items st).2 !! k))
  ∧ (k ∉ items.*1 →
     devices (for_each store_hostname items st).2 !! k = devices st !! k).
Proof.
  revert st. induction items as [|kv items IH]; intros st; [done|].
  rewrite for_each_cons.
  destruct (store_hostname_devices kv st) as [(h & _ & ->)|(e & _ & ->)]; [|split; [done|done]].
  destruct (IH (set_devices <[kv.1 := h]> st)) as [IH1 IH2]. split.
  - intros Hk. apply IH1. cbn. rewrite lookup_insert.
    case_decide; [done|done].
  - intros Hnot. rewrite fmap_cons, not_elem_of_cons in Hnot.
    destruct Hnot as [Hne Hnot]. rewrite IH2 by done.
    cbn. by rewrite lookup_insert_ne.
Qed.

(** On items with distinct keys and readable hostnames the loop ends
    normally and every item's hostname is stored under its key. *)
Lemma store_loop_ok (items : list (string * json)) (st : TelemetryWs) :
  NoDup items.*1 →
  (∀ kv, kv ∈ items → ∃ h, hostname_of kv.2 = Ok h) →
  (for_each store_hostname items st).1 = Ok tt
  ∧ ∀ k v h, (k, v) ∈ items → hostname_of v = Ok h →
      devices (for_each store_hostname items st).2 !! k = Some h.
Proof.
  revert st. induction items as [|kv items IH]; intros st Hnodup Hok.
  { split; [done|]. intros k v h Hin. by apply elem_of_nil in Hin. }
  rewrite fmap_cons in Hnodup. apply NoDup_cons in Hnodup as [Hfresh Hnodup].
  rewrite for_each_cons.
  destruct (Hok kv) as [h0 Hh0]; [by left|].
  destruct (store_hostname_devices kv st) as [(h1 & Hh1 & ->)|(e & He & _)];
    [|congruence].
  assert (h1 = h0) as -> by congruence.
  destruct (IH (set_devices <[kv.1 := h0]> st) Hnodup) as [IH1 IH2].
  { intros kv' Hin. apply Hok. by right. }
  split; [done|]. intros k v h Hin Hh.
  apply elem_of_cons in Hin as [Heq|Hin]; [|by eapply IH2].
  subst kv. cbn [fst snd] in *.
  destruct (store_loop_preserves items (set_devices <[k := h0]> st) k) as [_ Hkeep].
  rewrite Hkeep by done. cbn. rewrite lookup_insert_eq. congruence.
Qed.

Lemma process_devices_unfold (b : json) (st : TelemetryWs) :
  process_devices b st =
    match Py.getitem_str b "updates" with
    | Ok (JObj u) =>
        match for_each store_hostname (map_to_list u) st with
        | (Ok _, st') =>
            (Ok tt, push_log INFO
                      (Format "Received devices. Total device count is {}."
                              [VJson (JInt (Z.of_nat (size (devices st'))))]) st')
        | (Raise e, st') => (Raise e, st')
        end
    | Ok _ => (Raise AttributeError, st)
    | Raise e => (Raise e, st)
    end.
Proof.
  unfold process_devices, mbind, M_bind, lift, self, logging, update.
  destruct (Py.getitem_str b "updates") as [upd|e]; [|done].
  by destruct upd.
Qed.

Lemma not_in_items (u : gmap string json) (k : string) :
  u !! k = None → k ∉ (map_to_list u).*1.
Proof.
  intros Hnone Hin. apply list_elem_of_fmap in Hin as ([k' v] & -> & Hin).
  apply elem_of_map_to_list in Hin. cbn in Hnone. congruence.
Qed.

(** One call of [process_devices] keeps every entry it finds and leaves the
    identifiers its batch does not have as they were, also when it raises. *)
Lemma process_devices_preserves (b : json) (st : TelemetryWs) (k : string) :
  (is_Some (devices st !! k) → is_Some (devices (process_devices b st).2 !! k))
  ∧ (¬ has_key b k → devices (process_devices b st).2 !! k = devices st !! k).
Proof.
  rewrite process_devices_unfold. unfold has_key.
  destruct (Py.getitem_str b "updates") as [upd|e]; [|done].
  destruct upd as [| | | | | |u]; try done.
  destruct (store_loop_preserves (map_to_list u) st k) as [Hkeep Hother].
  destruct (for_each store_hostname (map_to_list u) st) as [[[]|e] st'];
    cbn [snd push_log devices] in *.
  - split; [done|]. intros Hnot. apply Hother, not_in_items.
    destruct (u !! k) eqn:Hk; [|done]. destruct Hnot. eauto.
  - split; [done|]. intros Hnot. apply Hother, not_in_items.
    destruct (u !! k) eqn:Hk; [|done]. destruct Hnot. eauto.
Qed.

(** On a well-formed batch [process_devices] returns normally and stores
    each hostname the batch carries. *)
Lemma process_devices_ok (b : json) (st : TelemetryWs) :
  well_formed_batch b →
  (process_devices b st).1 = Ok tt
  ∧ ∀ k h, mentions b k h → devices (process_devices b st).2 !! k = Some h.
Proof.
  intros (u & Hupd & Hwf). rewrite process_devices_unfold, Hupd.
  destruct (store_loop_ok (map_to_list u) st) as [Hret Hstored].
  { apply NoDup_fst_map_to_list. }
  { intros [k v] Hin. apply elem_of_map_to_list in Hin. by eapply Hwf. }
  destruct (for_each store_hostname (map_to_list u) st) as [[[]|e] st'];
    [|discriminate].
  split; [done|]. intros k h (u' & v & Hupd' & Hk & Hh).
  assert (u' = u) as -> by congruence.
  cbn [snd push_log devices] in *. eapply Hstored; [|done].
  by apply elem_of_map_to_list.
Qed.

(** C1. Batches are applied in arrival order by [process_devices].
    Whatever the batches are, no entry of the device table is ever removed
    and an identifier that no batch has keeps its mapping.  When the
    batches are well formed every call returns normally and each
    identifier is mapped to the hostname of the last batch that has it. *)
Theorem apply_batches_last_write_wins (batches : list json) (st : TelemetryWs) :
  (∀ k, is_Some (devices st !! k) →
        is_Some (devices (apply_batches batches st).2 !! k))
  ∧ (∀ k, (∀ b, b ∈ batches → ¬ has_key b k) →
          devices (apply_batches batches st).2 !! k = devices st !! k)
  ∧ (Forall well_formed_batch batches →
       (apply_batches batches st).1 = Ok tt
       ∧ ∀ before b after k h,
           batches = before ++ b :: after →
           mentions b k h →
           (∀ b', b' ∈ after → ¬ has_key b' k) →
           devices (apply_batches batches st).2 !! k = Some h).
Proof.
  unfold apply_batches.
  assert (∀ bs st0 k, is_Some (devices st0 !! k) →
            is_Some (devices (for_each process_devices bs st0).2 !! k)) as Hkeep.
  { induction bs as [|b bs IH]; intros st0 k Hk; [done|].
    rewrite for_each_cons.
    destruct (process_devices_preserves b st0 k) as [Hb _].
    destruct (process_devices b st0) as [[[]|e] st1]; cbn [snd] in *; auto. }
  assert (∀ bs st0 k, (∀ b, b ∈ bs → ¬ has_key b k) →
            devices (for_each process_devices bs st0).2 !! k = devices st0 !! k)
    as Hother.
  { induction bs as [|b bs IH]; intros st0 k Hnot; [done|].
    rewrite for_each_cons.
    destruct (process_devices_preserves b st0 k) as [_ Hb].
    specialize (Hb (Hnot b ltac:(left))).
    destruct (process_devices b st0) as [[[]|e] st1]; cbn [snd] in *; [|done].
    rewrite IH; [done|]. intros b' Hin. apply Hnot. by right. }
  assert (∀ bs st0, Forall well_formed_batch bs →
            ∃ st1, for_each process_devices bs st0 = (Ok tt, st1)) as Hret.
  { induction bs as [|b bs IH]; intros st0 Hwf; [by eexists|].
    apply Forall_cons in Hwf as [Hb Hwf]. rewrite for_each_cons.
    destruct (process_devices_ok b st0 Hb) as [Hok _].
    destruct (process_devices b st0) as [[[]|e] st1]; [|discriminate].
    by apply IH. }
  split; [by apply Hkeep|]. split; [by apply Hother|].
  intros Hwf. split.
  { destruct (Hret batches st Hwf) as [st1 ->]. done. }
  intros before b after k h -> Hmention Hlater.
  apply Forall_app in Hwf as [Hwf1 Hwf2].
  apply Forall_cons in Hwf2 as [Hb Hwf2].
  destruct (Hret before st Hwf1) as [st1 Hrun1].
  rewrite (for_each_app _ _ _ _ _ Hrun1), for_each_cons.
  destruct (process_devices_ok b st1 Hb) as [Hok Hstored].
  specialize (Hstored k h Hmention).
  destruct (process_devices b st1) as [[[]|e] st2]; [|discriminate].
  cbn [snd] in Hstored. by rewrite Hother.
Qed.

(** ** Tokens and their seeds *)

Lemma alphabet_chars_length : length alphabet_chars = 36%nat.
Proof. reflexivity. Qed.

Lemma alphabet_chars_NoDup : NoDup alphabet_chars.
Proof. apply (bool_decide_unpack _). by vm_compute. Qed.

Lemma words_length (n : nat) : Z.of_nat (length (words n)) = 36 ^ Z.of_nat n.
Proof.
  induction n as [|n IH]; [done|].
  assert (∀ l : list ascii,
    Z.of_nat (length (l ≫= λ c, cons c <$> words n))
      = Z.of_nat (length l) * Z.of_nat (length (words n))) as Hbind.
  { induction l as [|c l IHl]; [done|].
    rewrite bind_cons, length_app, length_fmap. cbn [length]. lia. }
  change (words (S n)) with (alphabet_chars ≫= λ c, cons c <$> words n).
  rewrite Hbind, IH, alphabet_chars_length.
  replace (Z.of_nat (S n)) with (Z.succ (Z.of_nat n)) by lia.
  rewrite Z.pow_succ_r by lia. done.
Qed.

Lemma words_elem_of (n : nat) (w : list ascii) :
  w ∈ words n ↔ length w = n ∧ Forall (λ c, c ∈ alphabet_chars) w.
Proof.
  revert w. induction n as [|n IH]; intros w.
  - change (words 0) with [[] : list ascii]. rewrite list_elem_of_singleton.
    split; [by intros ->|]. intros [Hlen _]. by destruct w.
  - change (words (S n)) with (alphabet_chars ≫= λ c, cons c <$> words n).
    rewrite list_elem_of_bind. split.
    + intros (c & Hw & Hc). apply list_elem_of_fmap in Hw as (w' & -> & Hw').
      apply IH in Hw' as [Hlen Hall]. cbn [length]. split; [by f_equal|].
      by constructor.
    + intros [Hlen Hall]. destruct w as [|c w]; [done|].
      apply Forall_cons in Hall as [Hc Hall]. exists c. split; [|done].
      apply list_elem_of_fmap. exists w. split; [done|].
      apply IH. split; [|done]. cbn [length] in Hlen. lia.
Qed.

Lemma words_NoDup (n : nat) : NoDup (words n).
Proof.
  induction n as [|n IH].
  - change (words 0) with [[] : list ascii]. apply NoDup_singleton.
  - change (words (S n)) with (alphabet_chars ≫= λ c, cons c <$> words n).
    apply NoDup_bind; [| |apply alphabet_chars_NoDup].
    + intros c1 c2 w _ _ H1 H2.
      apply list_elem_of_fmap in H1 as (w1 & -> & _).
      apply list_elem_of_fmap in H2 as (w2 & Heq & _). congruence.
    + intros c _. apply NoDup_fmap_2; [|done]. by intros w1 w2 [= ->].
Qed.

Lemma random_choice_alphabet (st : TelemetryWs) :
  ∃ c, c ∈ alphabet_chars ∧ random_choice alphabet st = (Ok c, next_rng st).
Proof.
  unfold random_choice. fold alphabet_chars.
  destruct (alphabet_chars !! _) as [c|] eqn:Hc.
  - exists c. split; [|done]. by eapply list_elem_of_lookup_2.
  - apply lookup_ge_None in Hc. rewrite alphabet_chars_length in Hc.
    change (String.length alphabet) with 36%nat in Hc.
    pose proof (Nat.mod_upper_bound (rng st 0%nat) 36). lia.
Qed.

Lemma choices_cons (n : nat) (st : TelemetryWs) :
  choices (S n) alphabet st =
    match random_choice alphabet st with
    | (Ok c, st') =>
        match choices n alphabet st' with
        | (Ok cs, st'') => (Ok (c :: cs), st'')
        | (Raise e, st'') => (Raise e, st'')
        end
    | (Raise e, st') => (Raise e, st')
    end.
Proof. reflexivity. Qed.

(** Every run of [choices] returns a word over the alphabet. *)
Lemma choices_in_words (n : nat) (st : TelemetryWs) :
  ∃ w st', choices n alphabet st = (Ok w, st') ∧ w ∈ words n.
Proof.
  revert st. induction n as [|n IH]; intros st.
  - exists [], st. split; [done|]. by apply words_elem_of.
  - rewrite choices_cons.
    destruct (random_choice_alphabet st) as (c & Hc & ->).
    destruct (IH (next_rng st)) as (w & st' & -> & Hw).
    exists (c :: w), st'. split; [done|].
    apply words_elem_of in Hw as [Hlen Hall]. apply words_elem_of.
    cbn [length]. split; [by f_equal|by constructor].
Qed.

(** Every word over the alphabet is returned by some run of [choices]. *)
Lemma words_in_choices (n : nat) (w : list ascii) (st : TelemetryWs) :
  w ∈ words n → ∃ g, (choices n alphabet (set_rng g st)).1 = Ok w.
Proof.
  revert w. induction n as [|n IH]; intros w Hw.
  - apply words_elem_of in Hw as [Hlen _]. destruct w; [|done].
    by exists (λ _, 0%nat).
  - apply words_elem_of in Hw as [Hlen Hall]. destruct w as [|c w]; [done|].
    apply Forall_cons in Hall as [Hc Hall].
    destruct (IH w) as [g Hg].
    { apply words_elem_of. cbn [length] in Hlen. split; [lia|done]. }
    apply list_elem_of_lookup_1 in Hc as [i Hi].
    assert (i < 36)%nat as Hlt.
    { rewrite <- alphabet_chars_length. by eapply lookup_lt_Some. }
    exists (λ k, match k with O => i | S k' => g k' end).
    rewrite choices_cons. unfold random_choice. fold alphabet_chars.
    cbn [rng set_rng]. change (String.length alphabet) with 36%nat.
    rewrite Nat.mod_small, Hi by done.
    change (next_rng (set_rng _ st)) with (set_rng g st).
    destruct (choices n alphabet (set_rng g st)) as [[w'|e] st'];
      cbn [fst] in *; congruence.
Qed.

Lemma string_of_list_ascii_inj : Inj (=) (=) String.string_of_list_ascii.
Proof.
  intros w1 w2 Heq.
  rewrite <- (String.list_ascii_of_string_of_list_ascii w1),
          <- (String.list_ascii_of_string_of_list_ascii w2).
  by rewrite Heq.
Qed.

Lemma make_seed_unfold (st : TelemetryWs) :
  make_seed st =
    match choices seed_length alphabet st with
    | (Ok cs, st') => (Ok (String.string_of_list_ascii cs), st')
    | (Raise e, st') => (Raise e, st')
    end.
Proof. reflexivity. Qed.

Lemma seed_space_NoDup : NoDup seed_space.
Proof.
  unfold seed_space. apply NoDup_fmap_2; [|apply words_NoDup].
  apply string_of_list_ascii_inj.
Qed.

Lemma seed_space_size : Z.of_nat (length seed_space) = 36 ^ 20.
Proof. unfold seed_space. by rewrite length_fmap, words_length. Qed.

Lemma seed_space_possible (s : string) : s ∈ seed_space ↔ possible_seed s.
Proof.
  unfold seed_space, possible_seed. rewrite list_elem_of_fmap. split.
  - intros (w & -> & Hw).
    destruct (words_in_choices seed_length w sample_ws Hw) as [g Hg].
    exists (set_rng g sample_ws). rewrite make_seed_unfold.
    destruct (choices seed_length alphabet _) as [[w'|e] st'];
      cbn [fst] in *; congruence.
  - intros [st Hst]. rewrite make_seed_unfold in Hst.
    destruct (choices_in_words seed_length st) as (w & st' & Hrun & Hw).
    rewrite Hrun in Hst. cbn [fst] in Hst. exists w. split; [congruence|done].
Qed.

(** C8, as the program has it.  The token is the first 38 hexadecimal
    digits of the digest of a seed of twenty characters over a 36-letter
    alphabet.  The seeds [make_seed] can produce are exactly the members of
    [seed_space], which has no repetition and 36^20 members: more than
    2^103 and fewer than 2^104. *)
Theorem make_token_seed_space (SHA256_hexdigest : string → string) (st : TelemetryWs) :
  (∃ seed, seed ∈ seed_space
           ∧ (make_seed st).1 = Ok seed
           ∧ (make_token SHA256_hexdigest st).1
               = Ok (String.substring 0 38 (SHA256_hexdigest seed)))
  ∧ NoDup seed_space
  ∧ (∀ s, possible_seed s ↔ s ∈ seed_space)
  ∧ Z.of_nat (length seed_space) = 36 ^ 20
  ∧ 2 ^ 103 < Z.of_nat (length seed_space) < 2 ^ 104.
Proof.
  split; [|split; [apply seed_space_NoDup|split; [|split]]].
  - destruct (choices_in_words seed_length st) as (w & st' & Hrun & Hw).
    exists (String.string_of_list_ascii w). split; [|split].
    + unfold seed_space. by apply list_elem_of_fmap_2.
    + by rewrite make_seed_unfold, Hrun.
    + unfold make_token, mbind, M_bind. by rewrite make_seed_unfold, Hrun.
  - intros s. by rewrite seed_space_possible.
  - apply seed_space_size.
  - rewrite seed_space_size. lia.
Qed.

(** C8 fails as stated: no repetition-free collection of seeds that
    [make_seed] can produce has 2^128 members. *)
Lemma seed_space_below_2_128 :
  ¬ ∃ seeds : list string,
      NoDup seeds ∧ (∀ s, s ∈ seeds → possible_seed s)
      ∧ 2 ^ 128 ≤ Z.of_nat (length seeds).
Proof.
  intros (seeds & Hnodup & Hposs & Hbig).
  assert (length seeds ≤ length seed_space)%nat as Hle.
  { apply submseteq_length, NoDup_submseteq; [done|].
    intros s Hs. by apply seed_space_possible, Hposs. }
  pose proof seed_space_size as Hsize.
  revert Hle Hsize. generalize (length seed_space). intros n Hle Hsize. lia.
Qed.

(** ** The statements at sample inputs *)

Lemma on_message_ignores_witness :
  silently_ignored
    (on_message (loads_of [("m", JObj (result_fields "stale-token" []))]) sample_library "m" sample_ws)
    sample_ws
  ∧ silently_ignored
      (on_message (loads_of [("ack", JObj (ack_fields "events-token"))]) sample_library "ack" sample_ws)
      sample_ws.
Proof.
  split.
  - apply (on_message_ignores _ _ "m" (result_fields "stale-token" [])
             (JStr "stale-token") sample_ws); [reflexivity|reflexivity|].
    left. split; reflexivity.
  - apply (on_message_ignores _ _ "ack" (ack_fields "events-token")
             (JStr "events-token") sample_ws); [reflexivity|reflexivity|].
    right. reflexivity.
Defined.

Lemma on_message_empty_notifications_witness :
  on_message (loads_of [("m", JObj (result_fields "get-token" []))]) sample_library "m" sample_ws
  = (Raise IndexError, sample_ws).
Proof.
  apply (on_message_empty_notifications _ _ "m" (result_fields "get-token" [])
           (JStr "get-token")
           (JArr [JObj {[ "Notifications" := JArr [] ]}]) [] sample_ws);
    reflexivity.
Defined.


Lemma updates_of_device_batch (u : gmap string json) :
  Py.getitem_str (device_batch u) "updates" = Ok (JObj u).
Proof. reflexivity. Qed.

Lemma has_key_device_batch (u : gmap string json) (k : string) :
  has_key (device_batch u) k ↔ is_Some (u !! k).
Proof.
  unfold has_key. setoid_rewrite updates_of_device_batch. split.
  - intros (u' & [= <-] & Hk). done.
  - intros Hk. by exists u.
Qed.

Lemma well_formed_device_batch (k h : string) :
  well_formed_batch (device_batch {[ k := device_value h ]}).
Proof.
  exists {[ k := device_value h ]}. split; [apply updates_of_device_batch|].
  intros k' v Hk. apply lookup_singleton_Some in Hk as [_ <-].
  by exists (JStr h).
Qed.

Lemma mentions_device_batch (k h : string) :
  mentions (device_batch {[ k := device_value h ]}) k (JStr h).
Proof.
  exists {[ k := device_value h ]}, (device_value h).
  split; [apply updates_of_device_batch|]. split; [apply lookup_singleton_eq|done].
Qed.

Lemma apply_batches_last_write_wins_witness :
  Forall well_formed_batch sample_batches
  ∧ (apply_batches sample_batches sample_ws).1 = Ok tt
  ∧ devices (apply_batches sample_batches sample_ws).2 !! "A" = Some (JStr "host3")
  ∧ devices (apply_batches sample_batches sample_ws).2 !! "B" = Some (JStr "host2")
  ∧ devices (apply_batches sample_batches sample_ws).2 !! "C" = None.
Proof.
  assert (Forall well_formed_batch sample_batches) as Hwf.
  { repeat constructor; apply well_formed_device_batch. }
  destruct (apply_batches_last_write_wins sample_batches sample_ws)
    as (_ & Hother & Hlast).
  destruct (Hlast Hwf) as [Hret Hwins].
  split; [exact Hwf|]. split; [exact Hret|]. split; [|split].
  - apply (Hwins [device_batch {[ "A" := device_value "host1" ]};
                  device_batch {[ "B" := device_value "host2" ]}]
                 (device_batch {[ "A" := device_value "host3" ]}) []);
      [reflexivity|apply mentions_device_batch|].
    intros b' Hin. by apply elem_of_nil in Hin.
  - apply (Hwins [device_batch {[ "A" := device_value "host1" ]}]
                 (device_batch {[ "B" := device_value "host2" ]})
                 [device_batch {[ "A" := device_value "host3" ]}]);
      [reflexivity|apply mentions_device_batch|].
    intros b' Hin. apply list_elem_of_singleton in Hin as ->.
    rewrite has_key_device_batch. by intros [? [=]].
  - rewrite Hother; [reflexivity|].
    intros b Hin. unfold sample_batches in Hin.
    repeat (apply elem_of_cons in Hin as [->|Hin]);
      [..|by apply elem_of_nil in Hin];
      rewrite has_key_device_batch; by intros [? [=]].
Defined.

(** The merge example evaluated: snapshot [{A: host1}], then [{B: host2}],
    then [{A: host3}]. *)
Example merge_example :
  devices (apply_batches sample_batches sample_ws).2
  = {[ "A" := JStr "host3"; "B" := JStr "host2" ]}.
Proof. by vm_compute. Qed.

(** A response with two batches: only the second reaches the table. *)
Example single_batch_example :
  devices
    (on_message
       (loads_of [("m", JObj (result_fields "get-token"
                                [device_batch {[ "A" := device_value "host1" ]};
                                 device_batch {[ "B" := device_value "host2" ]}]))]) sample_library
       "m" sample_ws).2
  = {[ "B" := JStr "host2" ]}.
Proof. by vm_compute. Qed.

(** A frame whose second event has no [updates]: the first event is mailed
    before the [KeyError]. *)
Example partial_frame_example :
  let r := on_message
             (loads_of [("m", JObj (result_fields "events-token"
                                      [sample_event; JObj ∅]))]) sample_library
             "m" sample_ws in
  r.1 = Raise KeyError ∧ length (server_sent r.2) = 1%nat.
Proof. by vm_compute. Qed.

Example timestamp_example : Py.div_1000 (JInt 1700000000000) = Ok (JInt 1700000000).
Proof. reflexivity. Qed.

(** * Further properties *)

(** ** What one event can do *)

(** Every run of [send_email] is of one of four kinds: the event is dropped
    or the test for [data] raises, both with the object untouched; a field
    cannot be read or a library call raises after the [DEBUG] record; or
    one message is mailed. *)
Lemma send_email_cases (lib : Library) (event : json) (st : TelemetryWs) :
  (has_data event = false
   ∧ (send_email lib event st = (Ok tt, st) ∨ ∃ e, send_email lib event st = (Raise e, st)))
  ∨ (has_data event = true
     ∧ ((∃ e, send_email lib event st
              = (Raise e, push_log DEBUG (Format "Preparing email notification." []) st))
        ∨ ∃ upd data key host severity title desc millis secs,
            Py.getitem_str event "updates" = Ok upd
            ∧ Py.field_value upd "data" = Ok data
            ∧ Py.get data "deviceId" = Ok key
            ∧ resolve (devices st) key = Ok host
            ∧ Py.field_value upd "severity" = Ok severity
            ∧ Py.field_value upd "title" = Ok title
            ∧ Py.field_value upd "description" = Ok desc
            ∧ Py.field_value upd "timestamp" = Ok millis
            ∧ Py.div_1000 millis = Ok secs
            ∧ renders lib (config st) severity host title desc secs
            ∧ send_email lib event st
                = (Ok tt, after_mail (alert_for (config st) severity host title desc secs)
                            severity title st))).
Proof.
  unfold has_data, send_email, resolve.
  unfold mbind, M_bind, lift, self, logging, update.
  destruct (Py.getitem_str event "updates") as [upd|e] eqn:Hupd;
    [|left; split; [done|right; by eexists]].
  cbn [res_bind]. destruct (Py.contains_str "data" upd) as [[]|e] eqn:Hhas;
    cbn [negb]; [|left; split; [done|by left]|left; split; [done|right; by eexists]].
  right. split; [done|]. cbn [push_log devices config].
  destruct (Py.field_value upd "data") as [data|e] eqn:Hdata; [|left; by eexists].
  destruct (Py.get data "deviceId") as [key|e] eqn:Hkey; [|left; by eexists].
  destruct (Py.dict_get (devices st) key key) as [host|e] eqn:Hhost; [|left; by eexists].
  destruct (Py.field_value upd "severity") as [severity|e] eqn:Hsev; [|left; by eexists].
  destruct (Py.field_value upd "title") as [title|e] eqn:Htitle; [|left; by eexists].
  destruct (Py.field_value upd "description") as [desc|e] eqn:Hdesc; [|left; by eexists].
  destruct (Py.field_value upd "timestamp") as [millis|e] eqn:Hms;
    cbn [res_bind]; [|left; by eexists].
  destruct (Py.div_1000 millis) as [secs|e] eqn:Hsecs; [|left; by eexists].
  destruct (strftime_localtime lib _ secs) as [[]|e] eqn:H1; [|left; by eexists].
  destruct (format lib body_template _) as [[]|e] eqn:H2; [|left; by eexists].
  destruct (format lib "{} {} {}" _) as [[]|e] eqn:H3; [|left; by eexists].
  destruct (as_string lib _) as [[]|e] eqn:H4; [|left; by eexists].
  destruct (sendmail lib _) as [[]|e] eqn:H5; [|left; by eexists].
  right. exists upd, data, key, host, severity, title, desc, millis, secs.
  split_and!; try done.
  unfold renders, mail_outcome, alert_for, cc_header, mbind, res_bind.
  by rewrite H1, H2, H3, H4, H5.
Qed.

Lemma split_on_nonempty (sep : ascii) (s : string) : Py.split_on sep s ≠ [].
Proof.
  destruct s as [|c s]; [done|]. cbn [Py.split_on].
  case_bool_decide; [done|]. by destruct (Py.split_on sep s).
Qed.

(** Joining the pieces with the separator gives the string back. *)
Lemma split_on_concat (sep : ascii) (s : string) :
  String.concat (String sep EmptyString) (Py.split_on sep s) = s.
Proof.
  induction s as [|c s IH]; [done|]. cbn [Py.split_on].
  pose proof (split_on_nonempty sep s) as Hne.
  destruct (Py.split_on sep s) as [|piece rest]; [done|].
  case_bool_decide as Hc.
  - subst c. cbn [String.concat]. cbn [String.append]. by rewrite <- IH.
  - rewrite <- IH. by destruct rest.
Qed.

(** No piece contains the separator. *)
Lemma split_on_pieces (sep : ascii) (s : string) :
  Forall (λ piece, sep ∉ String.list_ascii_of_string piece) (Py.split_on sep s).
Proof.
  induction s as [|c s IH].
  - constructor; [|done]. cbn. apply not_elem_of_nil.
  - cbn [Py.split_on]. pose proof (split_on_nonempty sep s) as Hne.
    destruct (Py.split_on sep s) as [|piece rest]; [done|].
    apply Forall_cons in IH as [Hpiece Hrest].
    case_bool_decide as Hc.
    + constructor; [cbn; apply not_elem_of_nil|by constructor].
    + constructor; [|done]. cbn [String.list_ascii_of_string].
      rewrite not_elem_of_cons. split; [congruence|done].
Qed.

Lemma after_mail_fields (alert : email) (severity title : json) (st : TelemetryWs) :
  same_wiring st (after_mail alert severity title st)
  ∧ devices (after_mail alert severity title st) = devices st
  ∧ server_sent (after_mail alert severity title st) = server_sent st ++ [alert]
  ∧ log (after_mail alert severity title st)
      = log st ++ [(DEBUG, Format "Preparing email notification." []);
                   (INFO, Format "Email sent for event: {} {}"
                                 [VJson severity; VJson title])].
Proof.
  unfold same_wiring, after_mail. cbn. by rewrite <- app_assoc.
Qed.

Lemma same_wiring_refl (st : TelemetryWs) : same_wiring st st.
Proof. by unfold same_wiring. Qed.

Lemma same_wiring_trans (st1 st2 st3 : TelemetryWs) :
  same_wiring st1 st2 → same_wiring st2 st3 → same_wiring st1 st3.
Proof. unfold same_wiring. intros ??. destruct_and!. split_and!; congruence. Qed.

Lemma log_extended_refl (st : TelemetryWs) : log_extended st st.
Proof. exists []. by rewrite app_nil_r. Qed.

Lemma log_extended_trans (st1 st2 st3 : TelemetryWs) :
  log_extended st1 st2 → log_extended st2 st3 → log_extended st1 st3.
Proof.
  intros (l1 & H1 & F1) (l2 & H2 & F2). exists (l1 ++ l2).
  rewrite H2, H1, app_assoc. split; [done|]. by apply Forall_app.
Qed.

(** The effect of [send_email] on every field, by kind of run. *)
Lemma send_email_effect (lib : Library) (event : json) (st : TelemetryWs) :
  same_wiring st (send_email lib event st).2
  ∧ devices (send_email lib event st).2 = devices st
  ∧ log_extended st (send_email lib event st).2
  ∧ (mails_added st (send_email lib event st).2 []
     ∨ ∃ upd data key host severity title desc millis secs,
         mails_added st (send_email lib event st).2
           [alert_for (config st) severity host title desc secs]
         ∧ (send_email lib event st).1 = Ok tt
         ∧ has_data event = true
         ∧ Py.getitem_str event "updates" = Ok upd
         ∧ Py.field_value upd "data" = Ok data
         ∧ Py.get data "deviceId" = Ok key
         ∧ resolve (devices st) key = Ok host
         ∧ Py.field_value upd "severity" = Ok severity
         ∧ Py.field_value upd "title" = Ok title
         ∧ Py.field_value upd "description" = Ok desc
         ∧ Py.field_value upd "timestamp" = Ok millis
         ∧ Py.div_1000 millis = Ok secs).
Proof.
  unfold mails_added.
  destruct (send_email_cases lib event st)
    as [[_ [->|[e ->]]]|[Hdata [[e ->]|Hmail]]]; cbn [fst snd].
  - split_and!; [apply same_wiring_refl|done|apply log_extended_refl|].
    left. by rewrite app_nil_r.
  - split_and!; [apply same_wiring_refl|done|apply log_extended_refl|].
    left. by rewrite app_nil_r.
  - split_and!; [done|done| |left; cbn; by rewrite app_nil_r].
    eexists. split; [reflexivity|]. by repeat constructor.
  - destruct Hmail as (upd & data & key & host & severity & title & desc & millis
                       & secs & ? & ? & ? & ? & ? & ? & ? & ? & ? & ? & ->).
    cbn [fst snd].
    destruct (after_mail_fields (alert_for (config st) severity host title desc secs)
                severity title st) as (Hw & Hd & Hs & Hl).
    split_and!; [done|done| |].
    + eexists. split; [exact Hl|]. by repeat constructor.
    + right. exists upd, data, key, host, severity, title, desc, millis, secs.
      by split_and!.
Qed.

(** X1.  The envelope of a mailed message comes from the configuration
    alone: the recipients are the comma-separated pieces of
    [sendToAddress], which joined by commas give it back and none of which
    contains a comma; [sendCCAddress] only ever sets the [Cc] header. *)
Theorem send_email_envelope (lib : Library) (event : json) (st : TelemetryWs) (alert : email) :
  mails_added st (send_email lib event st).2 [alert] →
  envelope_from alert = userName (config st)
  ∧ envelope_to alert = Py.split_on "," (sendToAddress (config st))
  ∧ String.concat "," (envelope_to alert) = sendToAddress (config st)
  ∧ Forall (λ piece, ","%char ∉ String.list_ascii_of_string piece) (envelope_to alert)
  ∧ hdr_From alert = userName (config st)
  ∧ hdr_To alert = sendToAddress (config st)
  ∧ hdr_Cc alert = cc_header (config st).
Proof.
  intros Hadded.
  destruct (send_email_effect lib event st) as (_ & _ & _ & [Hnone|Hmail]).
  - unfold mails_added in *. rewrite Hnone in Hadded.
    apply (f_equal length) in Hadded. rewrite !length_app in Hadded.
    cbn in Hadded. lia.
  - destruct Hmail as (upd & data & key & host & severity & title & desc & millis
                       & secs & Hone & _).
    unfold mails_added in *. rewrite Hone in Hadded.
    apply app_inv_head in Hadded. injection Hadded as <-.
    cbn [alert_for envelope_from envelope_to hdr_From hdr_To hdr_Cc].
    split_and!; try done.
    + apply split_on_concat.
    + apply split_on_pieces.
Qed.

Lemma send_email_envelope_witness :
  mails_added sample_ws (send_email sample_library sample_event sample_ws).2
    [alert_for sample_config (JStr "ERROR") (JStr "SN1") (JStr "Link down")
       (JStr "Ethernet1 is down") (JInt 1700000000)]
  ∧ envelope_to (alert_for sample_config (JStr "ERROR") (JStr "SN1") (JStr "Link down")
                   (JStr "Ethernet1 is down") (JInt 1700000000))
      = ["a@x"; "b@y"].
Proof.
  assert (mails_added sample_ws (send_email sample_library sample_event sample_ws).2
            [alert_for sample_config (JStr "ERROR") (JStr "SN1") (JStr "Link down")
               (JStr "Ethernet1 is down") (JInt 1700000000)]) as Hadded
    by reflexivity.
  split; [exact Hadded|].
  destruct (send_email_envelope sample_library sample_event sample_ws _ Hadded) as (_ & Hto & _).
  exact Hto.
Defined.

(** ** What one batch can do *)

(** The loop of [process_devices] writes the device table and nothing
    else, also when it ends with an exception. *)
Lemma store_loop_only_devices (items : list (string * json)) (st : TelemetryWs) :
  (for_each store_hostname items st).2
  = set_devices (λ _, devices (for_each store_hostname items st).2) st.
Proof.
  revert st. induction items as [|kv items IH]; intros st.
  - by destruct st.
  - rewrite for_each_cons.
    destruct (store_hostname_devices kv st) as [(h & _ & ->)|(e & _ & ->)];
      [|by destruct st].
    by rewrite IH at 1.
Qed.

Lemma hostnames_lookup (u : gmap string json) (k : string) :
  hostnames u !! k
  = u !! k ≫= λ v, match hostname_of v with Ok h => Some h | Raise _ => None end.
Proof. unfold hostnames. apply lookup_omap. Qed.

(** The run of [process_devices] on a well-formed batch, as one equation. *)
Lemma process_devices_run (b : json) (u : gmap string json) (st : TelemetryWs) :
  Py.getitem_str b "updates" = Ok (JObj u) →
  (∀ k v, u !! k = Some v → ∃ h, hostname_of v = Ok h) →
  process_devices b st
  = (Ok tt,
     push_log INFO
       (Format "Received devices. Total device count is {}."
               [VJson (JInt (Z.of_nat (size (hostnames u ∪ devices st))))])
       (set_devices (λ d, hostnames u ∪ d) st)).
Proof.
  intros Hupd Hwf.
  assert (well_formed_batch b) as Hb by (by exists u).
  destruct (process_devices_ok b st Hb) as [Hret Hstored].
  assert (∀ k, devices (process_devices b st).2 !! k
               = (hostnames u ∪ devices st) !! k) as Hlookup.
  { intros k. rewrite lookup_union, hostnames_lookup.
    destruct (u !! k) as [v|] eqn:Hk; cbn.
    - destruct (Hwf k v Hk) as [h Hh]. rewrite Hh.
      rewrite (Hstored k h) by (by exists u, v).
      by destruct (devices st !! k).
    - destruct (process_devices_preserves b st k) as [_ ->].
      + by destruct (devices st !! k).
      + intros (u' & Hu' & Hsome). assert (u' = u) as -> by congruence.
        rewrite Hk in Hsome. by destruct Hsome. }
  apply map_eq in Hlookup.
  rewrite process_devices_unfold, Hupd in *.
  pose proof (store_loop_only_devices (map_to_list u) st) as Honly.
  destruct (for_each store_hostname (map_to_list u) st) as [[[]|e] st'];
    [|discriminate].
  cbn [snd push_log devices] in *. rewrite Hlookup in Honly.
  rewrite Honly at 2. rewrite Hlookup. done.
Qed.


Lemma apply_batches_two (b1 b2 : json) (u1 u2 : gmap string json) (st : TelemetryWs) :
  Py.getitem_str b1 "updates" = Ok (JObj u1) →
  (∀ k v, u1 !! k = Some v → ∃ h, hostname_of v = Ok h) →
  Py.getitem_str b2 "updates" = Ok (JObj u2) →
  (∀ k v, u2 !! k = Some v → ∃ h, hostname_of v = Ok h) →
  (apply_batches [b1; b2] st).1 = Ok tt
  ∧ devices (apply_batches [b1; b2] st).2 = hostnames u2 ∪ (hostnames u1 ∪ devices st).
Proof.
  intros Hu1 Hwf1 Hu2 Hwf2. unfold apply_batches.
  rewrite for_each_cons, (process_devices_run b1 u1 st Hu1 Hwf1).
  rewrite for_each_cons, (process_devices_run b2 u2 _ Hu2 Hwf2).
  done.
Qed.

(** X2.  A well-formed batch delivered twice leaves the same table as the
    batch delivered once. *)
Theorem process_devices_idempotent (b : json) (u : gmap string json) (st : TelemetryWs) :
  Py.getitem_str b "updates" = Ok (JObj u) →
  (∀ k v, u !! k = Some v → ∃ h, hostname_of v = Ok h) →
  (apply_batches [b; b] st).1 = Ok tt
  ∧ devices (apply_batches [b; b] st).2 = devices (process_devices b st).2.
Proof.
  intros Hu Hwf.
  destruct (apply_batches_two b b u u st Hu Hwf Hu Hwf) as [Hret ->].
  split; [done|]. rewrite (process_devices_run b u st Hu Hwf).
  cbn [snd push_log set_devices devices].
  by rewrite (assoc_L (∪)), (idemp_L (∪)).
Qed.

Lemma process_devices_idempotent_witness :
  (apply_batches [device_batch {[ "A" := device_value "host1" ]};
                  device_batch {[ "A" := device_value "host1" ]}] sample_ws).1 = Ok tt
  ∧ devices (apply_batches [device_batch {[ "A" := device_value "host1" ]};
                            device_batch {[ "A" := device_value "host1" ]}] sample_ws).2
    = devices (process_devices (device_batch {[ "A" := device_value "host1" ]}) sample_ws).2.
Proof.
  apply (process_devices_idempotent _ {[ "A" := device_value "host1" ]} sample_ws).
  - reflexivity.
  - intros k v Hk. apply lookup_singleton_Some in Hk as [_ <-]. by exists (JStr "host1").
Defined.

(** X3.  Two well-formed batches about different identifiers give the same
    table in either order of arrival. *)
Theorem process_devices_commute (b1 b2 : json) (u1 u2 : gmap string json)
    (st : TelemetryWs) :
  Py.getitem_str b1 "updates" = Ok (JObj u1) →
  (∀ k v, u1 !! k = Some v → ∃ h, hostname_of v = Ok h) →
  Py.getitem_str b2 "updates" = Ok (JObj u2) →
  (∀ k v, u2 !! k = Some v → ∃ h, hostname_of v = Ok h) →
  (∀ k, is_Some (u1 !! k) → u2 !! k = None) →
  devices (apply_batches [b1; b2] st).2 = devices (apply_batches [b2; b1] st).2.
Proof.
  intros Hu1 Hwf1 Hu2 Hwf2 Hdisj.
  destruct (apply_batches_two b1 b2 u1 u2 st Hu1 Hwf1 Hu2 Hwf2) as [_ ->].
  destruct (apply_batches_two b2 b1 u2 u1 st Hu2 Hwf2 Hu1 Hwf1) as [_ ->].
  assert (hostnames u1 ##ₘ hostnames u2) as Hd.
  { apply map_disjoint_spec. intros k h1 h2 H1 H2.
    rewrite hostnames_lookup in H1, H2.
    destruct (u1 !! k) as [v1|] eqn:Hk1; [|done].
    rewrite (Hdisj k) in H2 by done. done. }
  rewrite !(assoc_L (∪)). f_equal. by apply map_union_comm.
Qed.

Lemma process_devices_commute_witness :
  devices (apply_batches [device_batch {[ "A" := device_value "host1" ]};
                          device_batch {[ "B" := device_value "host2" ]}] sample_ws).2
  = devices (apply_batches [device_batch {[ "B" := device_value "host2" ]};
                            device_batch {[ "A" := device_value "host1" ]}] sample_ws).2.
Proof.
  apply (process_devices_commute _ _ {[ "A" := device_value "host1" ]}
           {[ "B" := device_value "host2" ]} sample_ws).
  - reflexivity.
  - intros k v Hk. apply lookup_singleton_Some in Hk as [_ <-]. by exists (JStr "host1").
  - reflexivity.
  - intros k v Hk. apply lookup_singleton_Some in Hk as [_ <-]. by exists (JStr "host2").
  - intros k [v Hk]. apply lookup_singleton_Some in Hk as [<- _]. reflexivity.
Defined.

(** In every run of [process_devices] the wiring and the mail session are
    untouched, and the device count is logged exactly when the call
    returns normally. *)
Lemma process_devices_effect (b : json) (st : TelemetryWs) :
  same_wiring st (process_devices b st).2
  ∧ server_sent (process_devices b st).2 = server_sent st
  ∧ match (process_devices b st).1 with
    | Ok _ =>
        log (process_devices b st).2
        = log st ++ [(INFO, Format "Received devices. Total device count is {}."
                                   [VJson (JInt (Z.of_nat
                                      (size (devices (process_devices b st).2))))])]
    | Raise _ => log (process_devices b st).2 = log st
    end.
Proof.
  rewrite process_devices_unfold.
  destruct (Py.getitem_str b "updates") as [upd|e];
    [|by split_and!; [apply same_wiring_refl|..]].
  destruct upd as [| | | | | |u];
    try (by split_and!; [apply same_wiring_refl|..]).
  pose proof (store_loop_only_devices (map_to_list u) st) as Honly.
  destruct (for_each store_hostname (map_to_list u) st) as [[[]|e] st'];
    cbn [fst snd] in *; rewrite Honly; by split_and!.
Qed.

(** ** What one frame can do *)

Lemma for_each_send_email (lib : Library) (events : list json) (st : TelemetryWs) :
  same_wiring st (for_each (send_email lib) events st).2
  ∧ devices (for_each (send_email lib) events st).2 = devices st
  ∧ log_extended st (for_each (send_email lib) events st).2
  ∧ ∃ mails, mails_added st (for_each (send_email lib) events st).2 mails
             ∧ (length mails ≤ length (filter (λ ev, has_data ev = true) events))%nat
             ∧ ((for_each (send_email lib) events st).1 = Ok tt →
                length mails = length (filter (λ ev, has_data ev = true) events)).
Proof.
  revert st. induction events as [|ev events IH]; intros st.
  { split_and!; [apply same_wiring_refl|done|apply log_extended_refl|].
    exists []. unfold mails_added. cbn. by rewrite app_nil_r. }
  rewrite for_each_cons.
  destruct (send_email_effect lib ev st) as (Hw & Hd & Hl & Hm).
  pose proof (send_email_cases lib ev st) as Hcases.
  destruct (send_email lib ev st) as [[[]|e] st1] eqn:Hrun; cbn [fst snd] in *.
  - destruct (IH st1) as (Hw' & Hd' & Hl' & mails & Hm' & Hle & Heq).
    split_and!; [by eapply same_wiring_trans|congruence|by eapply log_extended_trans|].
    unfold mails_added in *. rewrite filter_cons.
    destruct Hm as [Hnone|Hone].
    + exists mails. rewrite Hm', Hnone, app_nil_r. split; [done|].
      destruct Hcases as [[Hno _]|[Hyes [[e He]|Hmail]]].
      * rewrite decide_False by (by rewrite Hno). done.
      * discriminate.
      * destruct Hmail as (?&?&?&?&?&?&?&?&?&?&?&?&?&?&?&?&?&?&?& Hst).
        injection Hst as ->. rewrite (proj1 (proj2 (proj2 (after_mail_fields _ _ _ _)))) in Hnone.
        apply (f_equal length) in Hnone. rewrite !length_app in Hnone. cbn in Hnone. lia.
    + destruct Hone as (?&?&?&?&?&?&?&?&?& Hadd & _ & Hyes & _).
      eexists (_ :: mails). rewrite Hm', Hadd, <- app_assoc. split; [done|].
      rewrite decide_True by done. cbn [length]. split; [lia|].
      intros Hok. by rewrite Heq.
  - split_and!; [done|done|done|].
    unfold mails_added in *. rewrite filter_cons.
    destruct Hm as [Hnone|Hone].
    + exists []. split; [done|]. cbn. split; [lia|done].
    + destruct Hone as (?&?&?&?&?&?&?&?&?& _ & [=] & _).
Qed.

Lemma process_devices_grows (b : json) (st : TelemetryWs) :
  log_extended st (process_devices b st).2.
Proof.
  destruct (process_devices_effect b st) as (_ & _ & Hlog).
  destruct (process_devices b st).1.
  - eexists. split; [exact Hlog|]. by repeat constructor.
  - exists []. by rewrite app_nil_r.
Qed.

Section Frames.

Variable json_loads : string → option json.
Variable lib : Library.

(** Every run of [on_message] leaves the object untouched, or is a run of
    [send_email] over the notifications of a frame with the events token,
    or a run of [process_devices] on one batch of a frame with a devices
    token. *)
Lemma on_message_cases (message : string) (st : TelemetryWs) :
  (∃ outcome, on_message json_loads lib message st = (outcome, st))
  ∨ (∃ events, on_message json_loads lib message st = for_each (send_email lib) events st)
  ∨ (∃ b, on_message json_loads lib message st = process_devices b st).
Proof.
  unfold on_message, mbind, M_bind, lift, self.
  destruct (json_loads message) as [data|]; [|left; by eexists].
  destruct (Py.getitem_str data "token") as [tok|e]; [|left; by eexists].
  destruct (Py.eq_token tok (events_token st)).
  { destruct (Py.contains_str "result" data) as [[]|e];
      [|left; by eexists|left; by eexists].
    destruct (notifications_of data) as [notifications|e]; [|left; by eexists].
    destruct (Py.iter notifications) as [events|e]; [|left; by eexists].
    right. left. by exists events. }
  destruct (Py.eq_token tok (devices_get_token st) || Py.eq_token tok (devices_sub_token st));
    [|left; by eexists].
  destruct (Py.contains_str "result" data) as [[]|e];
    [|left; by eexists|left; by eexists].
  destruct (notifications_of data) as [switch_updates|e]; [|left; by eexists].
  destruct (Py.len switch_updates) as [n|e]; [|left; by eexists].
  destruct (Py.getitem_int switch_updates (n - 1)) as [b|e]; [|left; by eexists].
  right. right. by exists b.
Qed.

(** X4.  Whatever the message, [on_message] never writes the configuration,
    the tokens, the socket, the threads or the generator; it only appends
    to the log, never at the [ERROR] level, and to the calls of the mail
    session; it removes no entry of the device table; and no frame both
    changes the device table and sends mail. *)
Theorem on_message_invariants (message : string) (st : TelemetryWs) :
  same_wiring st (on_message json_loads lib message st).2
  ∧ log_extended st (on_message json_loads lib message st).2
  ∧ (∃ mails, mails_added st (on_message json_loads lib message st).2 mails)
  ∧ (∀ k, is_Some (devices st !! k) →
          is_Some (devices (on_message json_loads lib message st).2 !! k))
  ∧ (devices (on_message json_loads lib message st).2 = devices st
     ∨ server_sent (on_message json_loads lib message st).2 = server_sent st).
Proof.
  destruct (on_message_cases message st) as [[o ->]|[[events ->]|[b ->]]].
  - cbn [snd]. split_and!; [apply same_wiring_refl|apply log_extended_refl| |done|by left].
    exists []. unfold mails_added. by rewrite app_nil_r.
  - destruct (for_each_send_email lib events st) as (Hw & Hd & Hl & mails & Hm & _).
    split_and!; [done|done|by exists mails| |by left].
    intros k. by rewrite Hd.
  - destruct (process_devices_effect b st) as (Hw & Hs & _).
    split_and!; [done|apply process_devices_grows| | |by right].
    + exists []. unfold mails_added. by rewrite app_nil_r.
    + intros k. apply process_devices_preserves.
Qed.

End Frames.

Lemma for_each_raise {A : Type} (body : A → M unit) (l1 l2 : list A) (x : A)
    (e : exn) (st st1 st2 : TelemetryWs) :
  for_each body l1 st = (Ok tt, st1) →
  body x st1 = (Raise e, st2) →
  for_each body (l1 ++ x :: l2) st = (Raise e, st2).
Proof.
  intros Hrun Hx. rewrite (for_each_app _ _ _ _ _ Hrun), for_each_cons. by rewrite Hx.
Qed.

Section EventFrames.

Variable json_loads : string → option json.
Variable lib : Library.

Lemma on_message_events (message : string) (m : gmap string json) (tok r : json)
    (events : list json) (st : TelemetryWs) :
  json_loads message = Some (JObj m) →
  m !! "token" = Some tok →
  routes_to_events st tok = true →
  m !! "result" = Some r →
  notifications_of (JObj m) = Ok (JArr events) →
  on_message json_loads lib message st = for_each (send_email lib) events st.
Proof.
  intros Hload Htok Hroute Hres Hnot.
  rewrite (on_message_parsed _ _ _ _ _ _ Hload Htok).
  unfold routes_to_events in Hroute. rewrite Hroute, Hres.
  rewrite bool_decide_eq_true_2 by done.
  unfold mbind at 1, M_bind at 1, lift at 1. rewrite Hnot.
  by unfold mbind at 1, M_bind at 1, lift at 1.
Qed.

(** X5.  A frame with the events token and a list of notifications sends at
    most one message per notification that has [data], and exactly one per
    such notification when [on_message] returns normally; the device table
    is not touched. *)
Theorem on_message_mail_count (message : string) (m : gmap string json) (tok r : json)
    (events : list json) (st : TelemetryWs) :
  json_loads message = Some (JObj m) →
  m !! "token" = Some tok →
  routes_to_events st tok = true →
  m !! "result" = Some r →
  notifications_of (JObj m) = Ok (JArr events) →
  devices (on_message json_loads lib message st).2 = devices st
  ∧ ∃ mails,
      mails_added st (on_message json_loads lib message st).2 mails
      ∧ (length mails ≤ length (filter (λ ev, has_data ev = true) events))%nat
      ∧ ((on_message json_loads lib message st).1 = Ok tt →
         length mails = length (filter (λ ev, has_data ev = true) events)).
Proof.
  intros Hload Htok Hroute Hres Hnot.
  rewrite (on_message_events _ _ _ _ _ _ Hload Htok Hroute Hres Hnot).
  destruct (for_each_send_email lib events st) as (_ & Hd & _ & Hmails). done.
Qed.

(** X6.  The notifications of a frame are handled in order and the first
    one that raises ends the frame: the messages of the notifications
    before it stay sent, the notifications after it are never looked at. *)
Theorem on_message_stops_at_first_error (message : string) (m : gmap string json)
    (tok r : json) (handled later : list json) (bad : json) (e : exn)
    (st st1 st2 : TelemetryWs) :
  json_loads message = Some (JObj m) →
  m !! "token" = Some tok →
  routes_to_events st tok = true →
  m !! "result" = Some r →
  notifications_of (JObj m) = Ok (JArr (handled ++ bad :: later)) →
  for_each (send_email lib) handled st = (Ok tt, st1) →
  send_email lib bad st1 = (Raise e, st2) →
  on_message json_loads lib message st = (Raise e, st2)
  ∧ ∃ mails, mails_added st st2 mails
             ∧ length mails = length (filter (λ ev, has_data ev = true) handled).
Proof.
  intros Hload Htok Hroute Hres Hnot Hrun Hbad.
  rewrite (on_message_events _ _ _ _ _ _ Hload Htok Hroute Hres Hnot).
  split; [by eapply for_each_raise|].
  destruct (for_each_send_email lib handled st) as (_ & _ & _ & mails & Hm & _ & Heq).
  rewrite Hrun in *. cbn [fst snd] in *.
  destruct (send_email_effect lib bad st1) as (_ & _ & _ & [Hnone|Hone]).
  - rewrite Hbad in Hnone. cbn [snd] in Hnone. exists mails.
    unfold mails_added in *. rewrite Hnone, Hm, app_nil_r. split; [done|by apply Heq].
  - destruct Hone as (?&?&?&?&?&?&?&?&?& _ & Hok & _).
    rewrite Hbad in Hok. discriminate.
Qed.

End EventFrames.

Lemma on_message_mail_count_witness :
  ∃ mails,
    mails_added sample_ws
      (on_message
         (loads_of [("m", JObj (result_fields "events-token"
                                  [sample_event; sample_event_no_data; sample_event]))]) sample_library
         "m" sample_ws).2 mails
    ∧ length mails = 2%nat.
Proof.
  destruct (on_message_mail_count
              (loads_of [("m", JObj (result_fields "events-token"
                                       [sample_event; sample_event_no_data; sample_event]))]) sample_library
              "m"
              (result_fields "events-token"
                 [sample_event; sample_event_no_data; sample_event])
              (JStr "events-token")
              (JArr [JObj {[ "Notifications" :=
                               JArr [sample_event; sample_event_no_data; sample_event] ]}])
              [sample_event; sample_event_no_data; sample_event] sample_ws
              eq_refl eq_refl eq_refl eq_refl eq_refl)
    as (_ & mails & Hadded & _ & Hcount).
  exists mails. split; [exact Hadded|]. apply Hcount. reflexivity.
Defined.

Lemma on_message_stops_at_first_error_witness :
  on_message
    (loads_of [("m", JObj (result_fields "events-token"
                             [sample_event; JObj ∅; sample_event]))]) sample_library
    "m" sample_ws
  = (Raise KeyError, (send_email sample_library sample_event sample_ws).2).
Proof.
  apply (on_message_stops_at_first_error
           (loads_of [("m", JObj (result_fields "events-token"
                                    [sample_event; JObj ∅; sample_event]))]) sample_library
           "m"
           (result_fields "events-token" [sample_event; JObj ∅; sample_event])
           (JStr "events-token")
           (JArr [JObj {[ "Notifications" :=
                            JArr [sample_event; JObj ∅; sample_event] ]}])
           [sample_event] [sample_event] (JObj ∅) KeyError sample_ws
           (send_email sample_library sample_event sample_ws).2 (send_email sample_library sample_event sample_ws).2);
    reflexivity.
Defined.

(** ** Start-up: tokens and requests *)

Lemma substring_length (n : nat) (s : string) :
  String.length (String.substring 0 n s) = (n `min` String.length s)%nat.
Proof.
  revert s. induction n as [|n IH]; intros [|c s]; cbn; [done..|].
  by rewrite IH.
Qed.

Lemma words_string_length (n : nat) (w : list ascii) :
  w ∈ words n → String.length (String.string_of_list_ascii w) = n.
Proof.
  intros Hw. apply words_elem_of in Hw as [<- _].
  induction w as [|c w IH]; [done|]. cbn. by rewrite IH.
Qed.

(** [choices] takes [n] draws from the generator and writes nothing else. *)
Lemma choices_run (n : nat) (st : TelemetryWs) :
  ∃ w, w ∈ words n
       ∧ choices n alphabet st = (Ok w, set_rng (λ k, rng st (n + k)%nat) st).
Proof.
  revert st. induction n as [|n IH]; intros st.
  - exists []. split; [by apply words_elem_of|]. by destruct st.
  - rewrite choices_cons.
    destruct (random_choice_alphabet st) as (c & Hc & ->).
    destruct (IH (next_rng st)) as (w & Hw & ->).
    exists (c :: w). split; [|done].
    apply words_elem_of in Hw as [Hlen Hall]. apply words_elem_of.
    cbn [length]. split; [by f_equal|by constructor].
Qed.

Lemma startup_requests_wire (g s e : string) (st0 : TelemetryWs) :
  Forall (sent_with_params st0) (startup_requests g s e).
Proof.
  unfold startup_requests, sent_with_params.
  repeat constructor; cbn [req_command req_token req_args req_version];
    unfold send_message, VERSION_1;
    rewrite (bool_decide_eq_false_2 ("1.0.0" = "0.9.0")) by done;
    (eexists; split; [reflexivity|]; split_and!; by simplify_map_eq).
Qed.

Section StartUp.

Variable SHA256_hexdigest : string → string.

Lemma make_token_run (st : TelemetryWs) :
  ∃ seed, seed ∈ seed_space
          ∧ String.length seed = 20%nat
          ∧ make_token SHA256_hexdigest st
            = (Ok (String.substring 0 38 (SHA256_hexdigest seed)),
               set_rng (λ k, rng st (20 + k)%nat) st).
Proof.
  destruct (choices_run seed_length st) as (w & Hw & Hrun).
  exists (String.string_of_list_ascii w). split; [|split].
  - unfold seed_space. by apply list_elem_of_fmap_2.
  - by apply words_string_length in Hw.
  - unfold make_token, mbind, M_bind. by rewrite make_seed_unfold, Hrun.
Qed.

(** X7.  [make_token] always returns; it takes exactly twenty draws from the
    generator and writes no other field; the token has at most 38
    characters, and exactly 38 when the digest has at least that many. *)
Theorem make_token_effect (st : TelemetryWs) :
  ∃ token,
    make_token SHA256_hexdigest st = (Ok token, set_rng (λ k, rng st (20 + k)%nat) st)
    ∧ (String.length token ≤ 38)%nat
    ∧ ((∀ seed, (38 ≤ String.length (SHA256_hexdigest seed))%nat) →
       String.length token = 38%nat).
Proof.
  destruct (make_token_run st) as (seed & _ & _ & ->).
  eexists. split; [done|]. rewrite substring_length. split; [lia|].
  intros Hlen. specialize (Hlen seed). lia.
Qed.

(** X8.  [on_run] always returns.  It stores three tokens, starts three
    threads (get devices, subscribe to devices, subscribe to events, in
    this order) whose requests carry the stored tokens, writes three
    [INFO] records and takes sixty draws from the generator; it sends
    nothing itself and leaves the device table, the mail session and the
    configuration alone.  Each started request, once its thread runs
    [send_message], goes out with its arguments under [params]. *)
Theorem on_run_effect (st : TelemetryWs) :
  ∃ g s e,
    (on_run SHA256_hexdigest st).1 = Ok tt
    ∧ devices_get_token (on_run SHA256_hexdigest st).2 = Some g
    ∧ devices_sub_token (on_run SHA256_hexdigest st).2 = Some s
    ∧ events_token (on_run SHA256_hexdigest st).2 = Some e
    ∧ threads (on_run SHA256_hexdigest st).2 = threads st ++ startup_requests g s e
    ∧ log (on_run SHA256_hexdigest st).2
        = log st ++ [(INFO, Format "Websocket connected." []);
                     (INFO, Format "Subscribing to Telemetry devices." []);
                     (INFO, Format "Subscribing to Telemetry events" [])]
    ∧ (∀ k, rng (on_run SHA256_hexdigest st).2 k = rng st (60 + k)%nat)
    ∧ devices (on_run SHA256_hexdigest st).2 = devices st
    ∧ socket_sent (on_run SHA256_hexdigest st).2 = socket_sent st
    ∧ server_sent (on_run SHA256_hexdigest st).2 = server_sent st
    ∧ config (on_run SHA256_hexdigest st).2 = config st
    ∧ (String.length g ≤ 38 ∧ String.length s ≤ 38 ∧ String.length e ≤ 38)%nat
    ∧ ∀ st0, Forall (sent_with_params st0) (startup_requests g s e).
Proof.
  destruct (on_run SHA256_hexdigest st) as [outcome st'] eqn:Hrun.
  unfold on_run, get_and_subscribe_devices, get_events in Hrun.
  unfold mbind, M_bind, logging, thread_start, update in Hrun.
  destruct (make_token_run
              (push_log INFO (Format "Subscribing to Telemetry devices." [])
                 (push_log INFO (Format "Websocket connected." []) st)))
    as (seed1 & _ & _ & H1).
  rewrite H1 in Hrun. cbv beta iota in Hrun.
  match type of Hrun with context [make_token SHA256_hexdigest ?x] =>
    pose proof (make_token_run x) as H2 end.
  destruct H2 as (seed2 & _ & _ & H2).
  rewrite H2 in Hrun. cbv beta iota in Hrun.
  match type of Hrun with context [make_token SHA256_hexdigest ?x] =>
    pose proof (make_token_run x) as H3 end.
  destruct H3 as (seed3 & _ & _ & H3).
  rewrite H3 in Hrun. cbv beta iota in Hrun.
  injection Hrun as <- <-.
  do 3 eexists. cbn.
  split_and!; try reflexivity.
  - by rewrite <- !app_assoc.
  - by rewrite <- !app_assoc.
  - rewrite substring_length. lia.
  - rewrite substring_length. lia.
  - rewrite substring_length. lia.
  - intros st0. apply startup_requests_wire.
Qed.

End StartUp.

(** ** Statements for users of the callbacks *)

(** X9.  [send_email] calls the mail session at most once and writes neither
    the device table nor the wiring.  When it does mail, it returns
    normally and the event has [data], [severity], [title], [description]
    and [timestamp] entries, each with a readable [value]. *)
Theorem send_email_at_most_once (lib : Library) (event : json) (st : TelemetryWs) :
  (∃ mails, mails_added st (send_email lib event st).2 mails ∧ (length mails ≤ 1)%nat)
  ∧ devices (send_email lib event st).2 = devices st
  ∧ same_wiring st (send_email lib event st).2
  ∧ ∀ alert, mails_added st (send_email lib event st).2 [alert] →
      (send_email lib event st).1 = Ok tt
      ∧ has_data event = true
      ∧ ∃ upd, Py.getitem_str event "updates" = Ok upd
               ∧ Forall (λ field, ∃ v, Py.field_value upd field = Ok v)
                        ["data"; "severity"; "title"; "description"; "timestamp"].
Proof.
  destruct (send_email_effect lib event st) as (Hw & Hd & _ & Hm).
  split_and!; [|done|done|].
  - destruct Hm as [Hnone|Hone]; [exists []; split; [done|cbn; lia]|].
    destruct Hone as (?&?&?&?&?&?&?&?&?& Hadd & _).
    eexists [_]. split; [exact Hadd|done].
  - intros alert Hadded. destruct Hm as [Hnone|Hone].
    + unfold mails_added in *. rewrite Hnone in Hadded.
      apply (f_equal length) in Hadded. rewrite !length_app in Hadded.
      cbn in Hadded. lia.
    + destruct Hone as (upd & ? & ? & ? & ? & ? & ? & ? & ? & _ & Hok & Hdata
                        & Hupd & ? & _ & _ & ? & ? & ? & ? & _).
      split; [done|]. split; [done|]. exists upd. split; [done|].
      repeat constructor; by eexists.
Qed.

Lemma send_email_at_most_once_witness :
  (send_email sample_library sample_event sample_ws).1 = Ok tt
  ∧ has_data sample_event = true
  ∧ ∃ upd, Py.getitem_str sample_event "updates" = Ok upd
           ∧ Forall (λ field, ∃ v, Py.field_value upd field = Ok v)
                    ["data"; "severity"; "title"; "description"; "timestamp"].
Proof.
  destruct (send_email_at_most_once sample_library sample_event sample_ws) as (_ & _ & _ & Hmail).
  apply (Hmail (alert_for sample_config (JStr "ERROR") (JStr "SN1") (JStr "Link down")
                  (JStr "Ethernet1 is down") (JInt 1700000000))).
  reflexivity.
Defined.

(** X10.  On a well-formed batch [process_devices] returns normally; the new
    table is the batch's hostnames laid over the old table, so its size is
    at least the old one; the log gets one [INFO] record with the size of
    the new table, and nothing else changes. *)
Theorem process_devices_exact (b : json) (u : gmap string json) (st : TelemetryWs) :
  Py.getitem_str b "updates" = Ok (JObj u) →
  (∀ k v, u !! k = Some v → ∃ h, hostname_of v = Ok h) →
  (process_devices b st).1 = Ok tt
  ∧ devices (process_devices b st).2 = hostnames u ∪ devices st
  ∧ dom (devices (process_devices b st).2) = dom u ∪ dom (devices st)
  ∧ log (process_devices b st).2
      = log st ++ [(INFO, Format "Received devices. Total device count is {}."
                                 [VJson (JInt (Z.of_nat (size (hostnames u ∪ devices st))))])]
  ∧ same_wiring st (process_devices b st).2
  ∧ server_sent (process_devices b st).2 = server_sent st.
Proof.
  intros Hupd Hwf. rewrite (process_devices_run b u st Hupd Hwf).
  cbn [fst snd push_log set_devices devices log server_sent].
  split_and!; try done.
  rewrite dom_union_L. f_equal. apply set_eq. intros k.
  rewrite !elem_of_dom, hostnames_lookup.
  destruct (u !! k) as [v|] eqn:Hk; cbn.
  - destruct (Hwf k v Hk) as [h ->]. split; by eauto.
  - split; by intros [? ?].
Qed.

Lemma process_devices_exact_witness :
  (process_devices (device_batch {[ "A" := device_value "host1" ]}) sample_ws).1 = Ok tt
  ∧ devices (process_devices (device_batch {[ "A" := device_value "host1" ]}) sample_ws).2
    = hostnames {[ "A" := device_value "host1" ]} ∪ devices sample_ws.
Proof.
  destruct (process_devices_exact (device_batch {[ "A" := device_value "host1" ]})
              {[ "A" := device_value "host1" ]} sample_ws) as (Hret & Hdev & _).
  - reflexivity.
  - intros k v Hk. apply lookup_singleton_Some in Hk as [_ <-]. by exists (JStr "host1").
  - split; [exact Hret|exact Hdev].
Defined.

(** X11.  How [process_devices] fails.  When [batch['updates']] cannot be read
    the exception of the subscript is raised, and when [updates] is not a
    dictionary [AttributeError], both before anything is written.  In
    every run the device count is logged exactly when the call returns
    normally: an exception leaves the log as it was. *)
Theorem process_devices_failure (b : json) (st : TelemetryWs) :
  match Py.getitem_str b "updates" with
  | Raise e => process_devices b st = (Raise e, st)
  | Ok (JObj _) => True
  | Ok _ => process_devices b st = (Raise AttributeError, st)
  end
  ∧ match (process_devices b st).1 with
    | Ok _ =>
        log (process_devices b st).2
        = log st ++ [(INFO, Format "Received devices. Total device count is {}."
                                   [VJson (JInt (Z.of_nat
                                      (size (devices (process_devices b st).2))))])]
    | Raise _ => log (process_devices b st).2 = log st
    end
  ∧ Py.getitem_str (JObj ∅) "updates" = Raise KeyError
  ∧ Py.getitem_str (JArr []) "updates" = Raise TypeError.
Proof.
  split; [|split; [apply process_devices_effect|done]].
  rewrite process_devices_unfold.
  destruct (Py.getitem_str b "updates") as [upd|e]; [|done]. by destruct upd.
Qed.

Section Tokens.

Variable json_loads : string → option json.
Variable lib : Library.

(** X12.  Tokens that are not strings.  Once the three token fields are set,
    a frame whose token is not a string is ignored without trace.  While
    the events token is still unset, a frame whose token is [null] is
    handled as an events frame. *)
Theorem on_message_token_kinds (message : string) (m : gmap string json) (tok : json)
    (st : TelemetryWs) :
  json_loads message = Some (JObj m) →
  m !! "token" = Some tok →
  (∀ s, tok ≠ JStr s) →
  (is_Some (events_token st) ∧ is_Some (devices_get_token st)
   ∧ is_Some (devices_sub_token st) →
   on_message json_loads lib message st = (Ok tt, st))
  ∧ (tok = JNull → events_token st = None →
     ∀ r events, m !! "result" = Some r →
       notifications_of (JObj m) = Ok (JArr events) →
       on_message json_loads lib message st = for_each (send_email lib) events st).
Proof.
  intros Hload Htok Hkind. split.
  - intros ([e He] & [g Hg] & [s Hs]).
    rewrite (on_message_parsed _ _ _ _ _ _ Hload Htok), He, Hg, Hs.
    destruct tok; try done. by destruct (Hkind s0).
  - intros -> Hnone r events Hres Hnot.
    apply (on_message_events json_loads lib message m JNull r events st); try done.
    unfold routes_to_events. by rewrite Hnone.
Qed.

End Tokens.


Lemma make_token_effect_witness :
  ∃ token, (make_token sample_digest sample_ws).1 = Ok token
           ∧ String.length token = 38%nat.
Proof.
  destruct (make_token_effect sample_digest sample_ws) as (token & Hrun & _ & Hlen).
  exists token. split.
  - rewrite Hrun. reflexivity.
  - apply Hlen. intros seed. unfold sample_digest. cbn. lia.
Defined.

(** X13.  An event whose [data] has no [deviceId] is still mailed when the
    library calls return normally: the identifier is [None], nothing is
    looked up, and [None] is the host of the message. *)
Theorem send_email_without_device_id (lib : Library) (event : json)
    (u dv : gmap string json) (severity title desc millis secs : json)
    (st : TelemetryWs) :
  Py.getitem_str event "updates" = Ok (JObj u) →
  Py.field_value (JObj u) "data" = Ok (JObj dv) →
  dv !! "deviceId" = None →
  Py.field_value (JObj u) "severity" = Ok severity →
  Py.field_value (JObj u) "title" = Ok title →
  Py.field_value (JObj u) "description" = Ok desc →
  Py.field_value (JObj u) "timestamp" = Ok millis →
  Py.div_1000 millis = Ok secs →
  renders lib (config st) severity JNull title desc secs →
  send_email lib event st
  = (Ok tt, after_mail (alert_for (config st) severity JNull title desc secs)
              severity title st).
Proof.
  intros Hupd Hdata Hid Hsev Htitle Hdesc Hms Hsecs Hrenders.
  assert (is_Some (u !! "data")) as Hsome.
  { unfold Py.field_value in Hdata. cbn in Hdata.
    destruct (u !! "data"); [done|discriminate]. }
  rewrite (send_email_run lib event (JObj u) (JObj dv) JNull JNull
             severity title desc millis secs st);
    [|done|by cbn [Py.contains_str]; rewrite bool_decide_eq_true_2|done
     |by cbn [Py.get]; rewrite Hid|done..].
  unfold renders in Hrenders. by rewrite Hrenders.
Qed.

Lemma send_email_without_device_id_witness :
  send_email sample_library sample_event_no_device sample_ws
  = (Ok tt, after_mail (alert_for sample_config (JStr "ERROR") JNull (JStr "Link down")
                          (JStr "Ethernet1 is down") (JInt 1700000000))
              (JStr "ERROR") (JStr "Link down") sample_ws).
Proof.
  apply (send_email_without_device_id sample_library sample_event_no_device
           (<[ "data" := valued (JObj ∅) ]> sample_event_updates) ∅
           (JStr "ERROR") (JStr "Link down") (JStr "Ethernet1 is down")
           (JInt 1700000000000) (JInt 1700000000) sample_ws);
    reflexivity.
Defined.

Lemma on_message_invariants_witness :
  is_Some
    (devices
       (on_message
          (loads_of [("m", JObj (result_fields "get-token"
                                   [device_batch {[ "B" := device_value "host2" ]}]))]) sample_library
          "m" (set_devices (λ _, {[ "A" := JStr "host1" ]}) sample_ws)).2 !! "A").
Proof.
  destruct (on_message_invariants
              (loads_of [("m", JObj (result_fields "get-token"
                                       [device_batch {[ "B" := device_value "host2" ]}]))]) sample_library
              "m" (set_devices (λ _, {[ "A" := JStr "host1" ]}) sample_ws))
    as (_ & _ & _ & Hkeep & _).
  apply Hkeep. eexists. reflexivity.
Defined.

Lemma on_message_token_kinds_witness :
  on_message (loads_of [("m", JObj (result_fields_of (JInt 7) [sample_event]))]) sample_library
    "m" sample_ws
  = (Ok tt, sample_ws)
  ∧ on_message (loads_of [("m", JObj (result_fields_of JNull [sample_event]))]) sample_library
      "m" fresh_ws
    = for_each (send_email sample_library) [sample_event] fresh_ws.
Proof.
  split.
  - apply (on_message_token_kinds _ _ "m" (result_fields_of (JInt 7) [sample_event])
             (JInt 7) sample_ws); try reflexivity.
    + intros s. discriminate.
    + repeat split; eexists; reflexivity.
  - destruct (on_message_token_kinds
                (loads_of [("m", JObj (result_fields_of JNull [sample_event]))]) sample_library
                "m" (result_fields_of JNull [sample_event]) JNull fresh_ws)
      as [_ Hnull]; [reflexivity|reflexivity|intros s; discriminate|].
    apply (Hnull eq_refl eq_refl
             (JArr [JObj {[ "Notifications" := JArr [sample_event] ]}]) [sample_event]);
      reflexivity.
Defined.

(** ** Device frames and failing frames *)

Section DeviceFrames.

Variable json_loads : string → option json.
Variable lib : Library.

(** C5. On a frame routed to the devices branch whose [result] carries a
    list of batches, [on_message] does exactly what [process_devices] does
    on the last batch, whatever the earlier batches are.  When the last
    batch is well formed the call returns normally and the device table
    afterwards holds, for every identifier of the last batch, the hostname
    that batch carries, and for every other identifier what it held
    before: nothing of an earlier batch reaches the table. *)
Theorem on_message_last_batch_only (message : string) (m : gmap string json)
    (tok r : json) (earlier : list json) (last_batch : json) (st : TelemetryWs) :
  json_loads message = Some (JObj m) →
  m !! "token" = Some tok →
  routes_to_devices st tok = true →
  m !! "result" = Some r →
  notifications_of (JObj m) = Ok (JArr (earlier ++ [last_batch])) →
  on_message json_loads lib message st = process_devices last_batch st
  ∧ ∀ u, Py.getitem_str last_batch "updates" = Ok (JObj u) →
         (∀ k v, u !! k = Some v → ∃ h, hostname_of v = Ok h) →
         (on_message json_loads lib message st).1 = Ok tt
         ∧ ∀ k, devices (on_message json_loads lib message st).2 !! k
                = match u !! k with
                  | Some v => match hostname_of v with
                              | Ok h => Some h
                              | Raise _ => None
                              end
                  | None => devices st !! k
                  end.
Proof.
  intros Hload Htok Hroute Hres Hnot.
  assert (on_message json_loads lib message st = process_devices last_batch st) as ->.
  { rewrite (on_message_devices _ _ _ _ _ _ _ Hload Htok Hroute Hres).
    unfold mbind at 1, M_bind at 1, lift at 1. rewrite Hnot.
    unfold mbind at 1, M_bind at 1, lift at 1. cbn [Py.len].
    unfold mbind at 1, M_bind at 1, lift at 1. cbn [Py.getitem_int].
    by rewrite seq_index_last. }
  split; [done|]. intros u Hupd Hwf.
  assert (well_formed_batch last_batch) as Hb by (by exists u).
  destruct (process_devices_ok last_batch st Hb) as [Hret Hstored].
  split; [done|]. intros k.
  destruct (u !! k) as [v|] eqn:Hk.
  - destruct (Hwf k v Hk) as [h Hh]. rewrite Hh. apply Hstored. by exists u, v.
  - apply process_devices_preserves. intros (u' & Hu' & Hsome).
    assert (u' = u) as -> by congruence. rewrite Hk in Hsome. by destruct Hsome.
Qed.


End DeviceFrames.

(** C5 at a response with the batches [{A: host1}] and [{B: host2}]: only
    [B] reaches the table. *)
Lemma on_message_last_batch_only_witness :
  (on_message (loads_of [("m", JObj two_batch_fields)]) sample_library "m" sample_ws).1
  = Ok tt
  ∧ devices (on_message (loads_of [("m", JObj two_batch_fields)]) sample_library
               "m" sample_ws).2 !! "B" = Some (JStr "host2")
  ∧ devices (on_message (loads_of [("m", JObj two_batch_fields)]) sample_library
               "m" sample_ws).2 !! "A" = None.
Proof.
  destruct (on_message_last_batch_only
              (loads_of [("m", JObj two_batch_fields)]) sample_library "m"
              two_batch_fields (JStr "sub-token")
              (JArr [JObj {[ "Notifications" :=
                               JArr [device_batch {[ "A" := device_value "host1" ]};
                                     device_batch {[ "B" := device_value "host2" ]}] ]}])
              [device_batch {[ "A" := device_value "host1" ]}]
              (device_batch {[ "B" := device_value "host2" ]}) sample_ws
              eq_refl eq_refl eq_refl eq_refl eq_refl) as [_ Htable].
  destruct (Htable {[ "B" := device_value "host2" ]} eq_refl) as [Hret Hlookup].
  { intros k v Hk. apply lookup_singleton_Some in Hk as [_ <-]. by exists (JStr "host2"). }
  split; [exact Hret|]. split.
  - rewrite (Hlookup "B"). reflexivity.
  - rewrite (Hlookup "A"). reflexivity.
Defined.


